(** * wtw: a Letterboxd watchlist resolved against TMDB streaming providers

    Shallow embedding of [src/main.py] and the properties checked on it.

    The program is sequential network I/O around three pieces of pure
    glue: JSON navigation, the page-count arithmetic and the text of the
    report.  The network, the JSON decoder and the HTML parser are
    external; they appear here as an oracle the code queries, and every
    query is recorded in a trace so that what the code asked for, and in
    which order, can be stated.

    Python exceptions are outcomes of the model: a computation returns a
    value or raises, and in both cases the store it has written so far
    (the trace and the attributes set on the instance) is kept. *)

From Stdlib Require Import ZArith String Ascii List Lia Permutation DecimalString.
From stdpp Require Import gmap strings list sorting.

Set Warnings "-register-all".
#[local] Open Scope string_scope.
#[local] Open Scope list_scope.
#[local] Open Scope Z_scope.

(** ** Python values that cross the model *)

(** The exceptions the modelled code can raise.  [JSONDecodeError] is what
    [response.json()] raises on a body that is not JSON, [ConnectionError]
    what [requests] raises when no response arrives at all. *)
Inductive exn :=
| KeyError | IndexError | TypeError | AttributeError | ValueError
| JSONDecodeError | ConnectionError.

(** Decoded JSON, as [response.json()] returns it: [None], [bool], [int],
    [str], [list] and [dict] with string keys.  JSON numbers with a
    fraction (Python [float]) are not modelled. *)
Inductive json :=
| JNull
| JBool (b : bool)
| JInt (n : Z)
| JStr (s : string)
| JList (l : list json)
| JDict (d : gmap string json).

(** A subscript: [obj["name"]] or [obj[0]]. *)
Inductive key :=
| KStr (s : string)
| KInt (i : Z).

(** What a computation ends in.  [Unmodelled] marks the two places where
    the model stops short of Python: a value that contradicts the source's
    own type annotation [list[str]], and a loop cut by its fuel.  No
    theorem below counts [Unmodelled] as a result of the program. *)
Inductive outcome (A : Type) :=
| Return (a : A)
| Raise (e : exn)
| Unmodelled.
Arguments Return {A} a.
Arguments Raise {A} e.
Arguments Unmodelled {A}.

(** [seq[i]] on a Python sequence: negative indices count from the end,
    anything outside [-len, len) raises [IndexError]. *)
Definition list_getitem {A : Type} (l : list A) (i : Z) : outcome A :=
  let n := Z.of_nat (length l) in
  let j := if i <? 0 then n + i else i in
  if (0 <=? j) && (j <? n) then
    match nth_error l (Z.to_nat j) with
    | Some x => Return x
    | None => Raise IndexError
    end
  else Raise IndexError.

(** [obj[k]] on a decoded JSON value.  A missing dict key is [KeyError]
    (so is an integer key: JSON object keys are strings); a list takes
    integer indices only; [None], [bool] and [int] are not subscriptable.
    A string subscripted by an integer yields a one-character string; the
    model reads strings as bytes, which is exact for ASCII text. *)
Definition getitem (o : json) (k : key) : outcome json :=
  match o, k with
  | JDict d, KStr s =>
      match d !! s with
      | Some v => Return v
      | None => Raise KeyError
      end
  | JDict _, KInt _ => Raise KeyError
  | JList l, KInt i => list_getitem l i
  | JList _, KStr _ => Raise TypeError
  | JStr s, KInt i =>
      match list_getitem (list_ascii_of_string s) i with
      | Return c => Return (JStr (String c EmptyString))
      | Raise e => Raise e
      | Unmodelled => Unmodelled
      end
  | JStr _, KStr _ => Raise TypeError
  | _, _ => Raise TypeError
  end.

(** [for x in obj]: the elements of a list, the keys of a dict, the
    characters of a string; anything else is not iterable.  The keys come
    in the order of [map_to_list], not of insertion: the code subscripts
    each element by a string, which fails on the first key whichever it
    is. *)
Definition iterate (o : json) : outcome (list json) :=
  match o with
  | JList l => Return l
  | JDict d => Return (map (fun kv => JStr (fst kv)) (map_to_list d))
  | JStr s =>
      Return (map (fun c => JStr (String c EmptyString)) (list_ascii_of_string s))
  | _ => Raise TypeError
  end.

(** ** The outside world *)

(** [requests.Response], reduced to what the code reads: [status_code],
    [text], and the value of [json()] ([None] when the body does not
    decode, in which case [json()] raises). *)
Record Response := {
  status_code : Z;
  text : string;
  json_body : option json
}.

(** What a GET yields: a response, or no response at all. *)
Inductive reply :=
| Responded (r : Response)
| NoConnection.

(** The three URLs the program requests, identified by the values it
    interpolates into them:
    - [WatchlistPage u p] is [https://letterboxd.com/{u}/watchlist/page/{p}];
    - [SearchMovie t] is the TMDB search for [quote_plus(t)];
    - [WatchProviders i] is the TMDB [movie/{i}/watch/providers]. *)
Inductive request :=
| WatchlistPage (username : string) (page : Z)
| SearchMovie (title : string)
| WatchProviders (movie_id : json).

(** What the program does to the outside, in order. *)
Inductive event :=
| Get (r : request)
| LogError (r : request) (status : Z).

(** [HTTPStatus.OK]. *)
Definition OK : Z := 200.

(** ** Movie *)

Record Movie := {
  title : string;
  platforms : list string
}.

(** [Movie.available]: [len(self.platforms) > 0]. *)
Definition available (m : Movie) : bool :=
  (0 <? Z.of_nat (length (platforms m))).

(** ** The store and the monad *)

(** The trace of events, oldest first, and the two attributes that
    [Letterboxd] sets on itself lazily ([None] while the attribute does
    not exist). *)
Record state := {
  trace : list event;
  _watchlist : option (list Movie);
  _summary : option string
}.

Definition M (A : Type) : Type := state -> outcome A * state.

Definition ret {A : Type} (a : A) : M A := fun s => (Return a, s).

Definition raise {A : Type} (e : exn) : M A := fun s => (Raise e, s).

Definition bind {A B : Type} (m : M A) (k : A -> M B) : M B :=
  fun s =>
    match m s with
    | (Return a, s') => k a s'
    | (Raise e, s') => (Raise e, s')
    | (Unmodelled, s') => (Unmodelled, s')
    end.

(** A pure partial operation inside the monad. *)
Definition lift {A : Type} (o : outcome A) : M A := fun s => (o, s).

(** [try: body except E: handler], for the exceptions [handles] accepts. *)
Definition try_except {A : Type} (body : M A) (handles : exn -> bool) (handler : M A) : M A :=
  fun s =>
    match body s with
    | (Raise e, s') => if handles e then handler s' else (Raise e, s')
    | r => r
    end.

Declare Scope py_scope.
Delimit Scope py_scope with py.
Notation "x <- c ;; k" := (bind c (fun x => k))
  (at level 100, c at next level, right associativity) : py_scope.
Notation "c ;;; k" := (bind c (fun _ => k))
  (at level 100, right associativity) : py_scope.
#[local] Open Scope py_scope.

(** The store after some more events. *)
Definition logged (s : state) (es : list event) : state :=
  {| trace := trace s ++ es;
     _watchlist := _watchlist s;
     _summary := _summary s |}.

Definition emit (e : event) : M unit :=
  fun s => (Return tt, logged s [e]).

(** A computation that leaves the store as it found it. *)
Definition silent {A : Type} (m : M A) : Prop := forall s, snd (m s) = s.

(** A function applied to the value returned, if any. *)
Definition outcome_map {A B : Type} (f : A -> B) (o : outcome A) : outcome B :=
  match o with
  | Return a => Return (f a)
  | Raise e => Raise e
  | Unmodelled => Unmodelled
  end.

(** Monadic [for x in l: body x]. *)
Fixpoint for_each {A : Type} (l : list A) (body : A -> M unit) : M unit :=
  match l with
  | [] => ret tt
  | x :: rest => body x ;;; for_each rest body
  end.

(** Monadic list comprehension [[f x for x in l]]. *)
Fixpoint comprehension {A B : Type} (f : A -> M B) (l : list A) : M (list B) :=
  match l with
  | [] => ret []
  | x :: rest => y <- f x ;; ys <- comprehension f rest ;; ret (y :: ys)
  end.

(** ** Text: the builtins the code calls on strings *)

Definition nl : string := String "010"%char EmptyString.

(** ASCII whitespace as [str.split()] and [str.isspace()] see it:
    tab, line feed, vertical tab, form feed, carriage return, the four
    separators 28..31 and the space.  Strings are read as bytes; the
    whitespace and the digits that Python knows outside ASCII are not
    modelled. *)
Definition is_space (c : ascii) : bool :=
  let n := nat_of_ascii c in
  (((9 <=? n) && (n <=? 13)) || ((28 <=? n) && (n <=? 32)))%nat.

Definition is_digit (c : ascii) : bool :=
  let n := nat_of_ascii c in
  ((48 <=? n) && (n <=? 57))%nat.

Definition digit_value (c : ascii) : Z := Z.of_nat (nat_of_ascii c) - 48.

Definition nonempty (s : string) : bool :=
  match s with EmptyString => false | _ => true end.

(** [s.split()]: the maximal runs of non-whitespace, in order. *)
Fixpoint split_from (s : string) (word : string) : list string :=
  match s with
  | EmptyString => if nonempty word then [word] else []
  | String c rest =>
      if is_space c then
        if nonempty word then word :: split_from rest EmptyString
        else split_from rest EmptyString
      else split_from rest (word +:+ String c EmptyString)
  end.

Definition split (s : string) : list string := split_from s EmptyString.

(** The digits of a decimal literal: at least one digit, single
    underscores allowed between digits only. *)
Fixpoint int_digits (s : string) (acc : Z) (after_digit : bool) : option Z :=
  match s with
  | EmptyString => if after_digit then Some acc else None
  | String c rest =>
      if is_digit c then int_digits rest (10 * acc + digit_value c) true
      else if Ascii.eqb c "_"%char && after_digit then int_digits rest acc false
      else None
  end.

(** [int(s)] on a token of [split()] (which has no whitespace left to
    strip): an optional sign, then the digits; [ValueError] otherwise.
    Python refuses a literal of more than 4300 digits; the model reads
    any number of them. *)
Definition int (s : string) : outcome Z :=
  let parsed :=
    match s with
    | String "-"%char rest => option_map Z.opp (int_digits rest 0 false)
    | String "+"%char rest => int_digits rest 0 false
    | _ => int_digits s 0 false
    end in
  match parsed with
  | Some n => Return n
  | None => Raise ValueError
  end.

(** [sep.join(l)]. *)
Fixpoint join (sep : string) (l : list string) : string :=
  match l with
  | [] => EmptyString
  | [x] => x
  | x :: rest => x +:+ sep +:+ join sep rest
  end.

(** [sorted(l)] on strings: a stable insertion by [<]; byte order is
    code-point order on UTF-8 text. *)
Fixpoint insert_sorted (x : string) (l : list string) : list string :=
  match l with
  | [] => [x]
  | y :: rest => if String.ltb x y then x :: y :: rest else y :: insert_sorted x rest
  end.

Definition sorted (l : list string) : list string :=
  fold_left (fun acc x => insert_sorted x acc) l [].

(** [s * n]. *)
Fixpoint str_times (s : string) (n : nat) : string :=
  match n with
  | O => EmptyString
  | S n' => s +:+ str_times s n'
  end.

(** [f"{count}"] for a count. *)
Definition str_of_nat (n : nat) : string := NilZero.string_of_uint (Nat.to_uint n).

(** [Movie.__str__]. *)
Definition Movie_str (m : Movie) : string :=
  if available m then
    ("Movie: " +:+ title m +:+ nl +:+ nl)
    +:+ ("Platforms " +:+ nl +:+ "---------- " +:+ nl)
    +:+ join nl (sorted (platforms m))
  else "Movie: " +:+ title m +:+ nl +:+ "Not available on any streaming platform".

(** ** Counter *)

(** [collections.Counter] is a dict, so it lists its keys in the order
    they were first inserted: an association list, a new key appended at
    the end, a known key incremented in place. *)
Fixpoint counter_incr (k : string) (c : list (string * nat)) : list (string * nat) :=
  match c with
  | [] => [(k, 1%nat)]
  | (k', n) :: rest =>
      if String.eqb k k' then (k', S n) :: rest
      else (k', n) :: counter_incr k rest
  end.

(** [Counter(iterable)]. *)
Definition Counter (l : list string) : list (string * nat) :=
  fold_left (fun c k => counter_incr k c) l [].

(** [counter[k]], 0 for a key that is not there. *)
Fixpoint counter_get (c : list (string * nat)) (k : string) : nat :=
  match c with
  | [] => O
  | (k', n) :: rest => if String.eqb k k' then n else counter_get rest k
  end.

(** ** The parsed page *)

(** What the code reads off a [BeautifulSoup] document:
    - [soup.find("h1", {"class": "section-heading"})], as the [.text] of
      the element found, [None] when there is none;
    - [soup.find_all("li", {"class": "poster-container"})], each with the
      result of its [find("img")] and that tag's [alt] attribute. *)
Record img_tag := { alt : option string }.

Record poster_container := { find_img : option img_tag }.

Record soup := {
  section_heading : option string;
  poster_containers : list poster_container
}.

(** [movies_count // (7 * 4) + 1]. *)
Definition num_of_pages_of (movies_count : Z) : Z := movies_count / (7 * 4) + 1.

(** ** Network access and the TMDB client *)

Section Program.

(** The network: the reply to a request may depend on everything the
    program did before it. *)
Variable net : list event -> request -> reply.

(** [requests.get(url, headers=...)], also through a session. *)
Definition requests_get (r : request) : M Response :=
  fun s =>
    let s' := logged s [Get r] in
    match net (trace s) r with
    | Responded resp => (Return resp, s')
    | NoConnection => (Raise ConnectionError, s')
    end.

(** [response.json()]. *)
Definition json_of (r : Response) : M json :=
  match json_body r with
  | Some j => ret j
  | None => raise JSONDecodeError
  end.

(** The annotation [-> list[str]] of [get_streaming_platforms]: a provider
    name that is not a string leaves the model. *)
Definition as_str (j : json) : M string :=
  match j with
  | JStr s => ret s
  | _ => lift Unmodelled
  end.

(** [platform["provider_name"]], the element of the list comprehension. *)
Definition provider_name_of (platform : json) : M string :=
  name <- lift (getitem platform (KStr "provider_name")) ;;
  as_str name.

Definition is_KeyError (e : exn) : bool :=
  match e with KeyError => true | _ => false end.

Section TMDB.

Variable country : string.

(** [TMDB.get_streaming_platforms]. *)
Definition get_streaming_platforms (movie_id : json) : M (list string) :=
  let endpoint := WatchProviders movie_id in
  response <- requests_get endpoint ;;
  if negb (status_code response =? OK) then
    emit (LogError endpoint (status_code response)) ;;;
    ret []
  else
    try_except
      (body <- json_of response ;;
       results <- lift (getitem body (KStr "results")) ;;
       by_country <- lift (getitem results (KStr country)) ;;
       streaming_platforms <- lift (getitem by_country (KStr "flatrate")) ;;
       items <- lift (iterate streaming_platforms) ;;
       comprehension provider_name_of items)
      is_KeyError
      (ret []).

(** [TMDB.get_movie_id]; the result [JNull] is Python's [None]. *)
Definition get_movie_id (title : string) : M json :=
  let endpoint := SearchMovie title in
  response <- requests_get endpoint ;;
  if negb (status_code response =? OK) then
    emit (LogError endpoint (status_code response)) ;;;
    ret JNull
  else
    body <- json_of response ;;
    results <- lift (getitem body (KStr "results")) ;;
    first <- lift (getitem results (KInt 0)) ;;
    movie_id <- lift (getitem first (KStr "id")) ;;
    ret movie_id.

(** [TMDB.get_movie]. *)
Definition get_movie (title : string) : M Movie :=
  movie_id <- get_movie_id title ;;
  match movie_id with
  | JNull => ret {| title := title; platforms := [] |}
  | _ =>
      streaming_platforms <- get_streaming_platforms movie_id ;;
      ret {| title := title; platforms := streaming_platforms |}
  end.

End TMDB.

(** ** Letterboxd *)

(** The HTML parser, on the text of a page. *)
Variable html_parser : string -> soup.

(** [BeautifulSoup(markup, "html.parser")]; the constructor takes the
    length of its markup and so raises [TypeError] on [None]. *)
Definition BeautifulSoup (markup : option string) : M soup :=
  match markup with
  | Some t => ret (html_parser t)
  | None => raise TypeError
  end.

Section Letterboxd.

Variable username : string.
Variable country : string.

(** [getattr(self, "_watchlist", None)] and [getattr(self, "_summary", None)]. *)
Definition getattr_watchlist : M (option (list Movie)) :=
  fun s => (Return (_watchlist s), s).

Definition getattr_summary : M (option string) :=
  fun s => (Return (_summary s), s).

(** [self._watchlist = l]. *)
Definition set_watchlist (l : list Movie) : M unit :=
  fun s => (Return tt, {| trace := trace s;
                          _watchlist := Some l;
                          _summary := _summary s |}).

(** [self._watchlist.append(movie)]. *)
Definition watchlist_append (movie : Movie) : M unit :=
  fun s =>
    match _watchlist s with
    | Some l => (Return tt, {| trace := trace s;
                               _watchlist := Some (l ++ [movie]);
                               _summary := _summary s |})
    | None => (Raise AttributeError, s)
    end.

(** [self._summary = t]. *)
Definition set_summary (t : string) : M unit :=
  fun s => (Return tt, {| trace := trace s;
                          _watchlist := _watchlist s;
                          _summary := Some t |}).

(** [self._summary += t]. *)
Definition summary_iadd (t : string) : M unit :=
  fun s =>
    match _summary s with
    | Some cur => (Return tt, {| trace := trace s;
                                 _watchlist := _watchlist s;
                                 _summary := Some (cur +:+ t) |})
    | None => (Raise AttributeError, s)
    end.

(** [Letterboxd.get_page]. *)
Definition get_page (page : Z) : M (option string) :=
  response <- requests_get (WatchlistPage username page) ;;
  if negb (status_code response =? OK) then
    emit (LogError (WatchlistPage username page) (status_code response)) ;;;
    ret None
  else ret (Some (text response)).

(** The body of [for movie_el in soup.find_all(...)]. *)
Definition resolve_poster (movie_el : poster_container) : M unit :=
  title <- lift (match find_img movie_el with
                 | None => Raise TypeError
                 | Some img =>
                     match alt img with
                     | Some a => Return a
                     | None => Raise KeyError
                     end
                 end) ;;
  movie <- get_movie country title ;;
  watchlist_append movie.

(** [while current_page <= num_of_pages: ...].  [fuel] bounds the number
    of times the guard is evaluated.  The progress bar ([tqdm], created
    with [total = num_of_pages - 1] and ticked once per iteration) only
    draws on the terminal and is left out; it fails on a total beyond the
    range of a float, which no count of films comes near. *)
Fixpoint while_pages (fuel : nat) (num_of_pages current_page : Z) (page : soup) : M unit :=
  match fuel with
  | O => lift Unmodelled
  | S fuel' =>
      if current_page <=? num_of_pages then
        for_each (poster_containers page) resolve_poster ;;;
        let current_page := current_page + 1 in
        watchlist_html <- get_page current_page ;;
        page' <- BeautifulSoup watchlist_html ;;
        while_pages fuel' num_of_pages current_page page'
      else ret tt
  end.

(** [Letterboxd.watchlist].  The guard of the loop is evaluated once per
    page from 1 to [num_of_pages] and once more to leave. *)
Definition watchlist : M (list Movie) :=
  cached <- getattr_watchlist ;;
  match cached with
  | Some (m :: l) => ret (m :: l)
  | _ =>
      set_watchlist [] ;;;
      let current_page := 1 in
      watchlist_html <- get_page current_page ;;
      match watchlist_html with
      | None => ret []
      | Some _ =>
          page <- BeautifulSoup watchlist_html ;;
          heading <- lift (match section_heading page with
                           | Some t => Return t
                           | None => Raise AttributeError
                           end) ;;
          token <- lift (list_getitem (split heading) (-2)) ;;
          movies_count <- lift (int token) ;;
          let num_of_pages := num_of_pages_of movies_count in
          while_pages (S (Z.to_nat num_of_pages)) num_of_pages current_page page ;;;
          result <- getattr_watchlist ;;
          match result with
          | Some l => ret l
          | None => raise AttributeError
          end
      end
  end.

(** [Letterboxd.summary]. *)
Definition summary : M string :=
  cached <- getattr_summary ;;
  match cached with
  | Some (String c t) => ret (String c t)
  | _ =>
      watchlist <- watchlist ;;
      set_summary EmptyString ;;;
      for_each watchlist
        (fun movie =>
           summary_iadd (Movie_str movie +:+ nl) ;;;
           summary_iadd (str_times "*" 50 +:+ nl)) ;;;
      let platforms := flat_map platforms watchlist in
      let counter := Counter platforms in
      summary_iadd ("Platforms summary " +:+ nl +:+ "----------" +:+ nl) ;;;
      for_each counter
        (fun pc => summary_iadd (fst pc +:+ ": " +:+ str_of_nat (snd pc) +:+ nl)) ;;;
      result <- getattr_summary ;;
      match result with
      | Some t => ret t
      | None => raise AttributeError
      end
  end.

End Letterboxd.

End Program.

(** ** Observations on a trace *)

(** The watchlist pages requested, in order. *)
Definition pages_fetched (t : list event) : list Z :=
  flat_map (fun e => match e with
                     | Get (WatchlistPage _ p) => [p]
                     | _ => []
                     end) t.

(** How many availability requests were sent. *)
Definition availability_calls (t : list event) : nat :=
  length (List.filter (fun e => match e with
                           | Get (WatchProviders _) => true
                           | _ => false
                           end) t).

(** A computation that requests no listing page. *)
Definition keeps_pages {A : Type} (m : M A) : Prop :=
  forall s o s', m s = (o, s') -> pages_fetched (trace s') = pages_fetched (trace s).

(** The header that [summary] always writes. *)
Definition summary_header : string :=
  "Platforms summary " +:+ nl +:+ "----------" +:+ nl.

(** The store with an attribute set. *)
Definition with_watchlist (s : state) (l : list Movie) : state :=
  {| trace := trace s; _watchlist := Some l; _summary := _summary s |}.

Definition with_summary (s : state) (t : string) : state :=
  {| trace := trace s; _watchlist := _watchlist s; _summary := Some t |}.

(** A computation that appends [t] to [self._summary] and does nothing
    else. *)
Definition appends (m : M unit) (t : string) : Prop :=
  forall s cur, _summary s = Some cur -> m s = (Return tt, with_summary s (cur +:+ t)).

(** The strings of a list, one after the other. *)
Definition str_concat (l : list string) : string :=
  fold_right String.append EmptyString l.

(** One entry of the report, and one line of its platform section. *)
Definition movie_entry (m : Movie) : string :=
  (Movie_str m +:+ nl) +:+ (str_times "*" 50 +:+ nl).

Definition counter_line (pc : string * nat) : string :=
  fst pc +:+ ": " +:+ str_of_nat (snd pc) +:+ nl.

(** The text [summary] builds from a watchlist. *)
Definition report (ms : list Movie) : string :=
  str_concat (map movie_entry ms)
  +:+ summary_header
  +:+ str_concat (map counter_line (Counter (flat_map platforms ms))).

(** How often a platform occurs in a list of names. *)
Definition occurrences (p : string) (l : list string) : nat :=
  length (List.filter (String.eqb p) l).

(** Whether a title carries a platform, and how many titles do. *)
Definition carries (p : string) (m : Movie) : bool :=
  existsb (String.eqb p) (platforms m).

Definition titles_carrying (p : string) (ms : list Movie) : nat :=
  length (List.filter (carries p) ms).

(** The distinct names of a list in the order of their first occurrence. *)
Fixpoint first_seen (l : list string) : list string :=
  match l with
  | [] => []
  | x :: rest => x :: List.filter (fun y => negb (String.eqb x y)) (first_seen rest)
  end.

(** A new [Letterboxd] instance: neither attribute exists yet. *)
Definition fresh (t : list event) : state :=
  {| trace := t; _watchlist := None; _summary := None |}.

(** ** A concrete world

    One user with a one-film watchlist.  Page 1 of the listing carries the
    heading and one poster; what later pages answer is a parameter.  TMDB
    knows the film and streams it on two platforms in Poland. *)
Module Scenario.

Definition user : string := "wombatbat".
Definition PL : string := "PL".

Definition page1_text : string := "<page 1>".

Definition page1 : soup :=
  {| section_heading := Some "wombatbat wants to see 1 films";
     poster_containers := [ {| find_img := Some {| alt := Some "Alien" |} |} ] |}.

Definition blank : soup :=
  {| section_heading := None; poster_containers := [] |}.

Definition parser (t : string) : soup :=
  if String.eqb t page1_text then page1 else blank.

Definition ok (t : string) (j : option json) : reply :=
  Responded {| status_code := 200; text := t; json_body := j |}.

Definition failed (code : Z) : reply :=
  Responded {| status_code := code; text := EmptyString; json_body := None |}.

Definition provider (name : string) : json :=
  JDict {[ "provider_name" := JStr name ]}.

Definition search_hit : json :=
  JDict {[ "results" := JList [ JDict {[ "id" := JInt 348 ]} ] ]}.

Definition search_nothing : json :=
  JDict {[ "results" := JList [] ]}.

Definition providers_of (names : list string) : json :=
  JDict {[ "results" :=
             JDict {[ PL := JDict {[ "flatrate" := JList (map provider names) ]} ]} ]}.

Definition search_without_results : json := JDict ∅.

Definition search_without_id : json :=
  JDict {[ "results" := JList [ JDict ∅ ] ]}.

(** [later] answers every page after the first, [found] the search,
    [names] the availability request. *)
Definition net (later : reply) (found : json) (names : list string)
    (_ : list event) (r : request) : reply :=
  match r with
  | WatchlistPage _ p => if p =? 1 then ok page1_text None else later
  | SearchMovie _ => ok EmptyString (Some found)
  | WatchProviders _ => ok EmptyString (Some (providers_of names))
  end.

(** A world whose listing does not answer at all: every page is a 404. *)
Definition net_404 (_ : list event) (r : request) : reply :=
  match r with
  | WatchlistPage _ _ => failed 404
  | _ => failed 404
  end.

End Scenario.

(** ** More concrete worlds *)

Module Cases.

Import Scenario.

(** A search with two results. *)
Definition two_results : json :=
  JDict {[ "results" := JList [ JDict {[ "id" := JInt 348 ]}; JDict {[ "id" := JInt 999 ]} ] ]}.

(** Availability bodies: [flatrate] is [null]; one entry has no name. *)
Definition flatrate_null : json :=
  JDict {[ "results" := JDict {[ PL := JDict {[ "flatrate" := JNull ]} ]} ]}.


(** TMDB finds every film; [answer] is what the availability request
    gets. *)
Definition net_providers (answer : reply) (_ : list event) (r : request) : reply :=
  match r with
  | WatchlistPage _ p => if p =? 1 then ok page1_text None else ok EmptyString None
  | SearchMovie _ => ok EmptyString (Some search_hit)
  | WatchProviders _ => answer
  end.

(** A listing of two pages: 30 films announced, two posters on the first
    page and one on the second. *)
Definition poster (a : string) : poster_container :=
  {| find_img := Some {| alt := Some a |} |}.

Definition first_page : soup :=
  {| section_heading := Some "wombatbat wants to see 30 films";
     poster_containers := [ poster "Alien"; poster "Heat" ] |}.

Definition second_page : soup :=
  {| section_heading := None; poster_containers := [ poster "Ran" ] |}.

Definition parser2 (t : string) : soup :=
  if String.eqb t "<page 1>" then first_page
  else if String.eqb t "<page 2>" then second_page
  else blank.

Definition listing (p : Z) : Response :=
  {| status_code := 200;
     text := if p =? 1 then "<page 1>" else if p =? 2 then "<page 2>" else EmptyString;
     json_body := None |}.

Definition net2 (_ : list event) (r : request) : reply :=
  match r with
  | WatchlistPage _ p => Responded (listing p)
  | SearchMovie _ => ok EmptyString (Some search_hit)
  | WatchProviders _ => ok EmptyString (Some (providers_of ["Netflix"]))
  end.

(** Pages that lack what the traversal reads. *)
Definition no_heading (_ : string) : soup := blank.

Definition short_heading (_ : string) : soup :=
  {| section_heading := Some "films"; poster_containers := [] |}.

Definition no_image (_ : string) : soup :=
  {| section_heading := Some "wombatbat wants to see 1 films";
     poster_containers := [ {| find_img := None |} ] |}.

End Cases.

(** ** Notions used by the further properties *)

(** [img["alt"]] of a poster, as [resolve_poster] reads it. *)
Definition poster_title (movie_el : poster_container) : outcome string :=
  match find_img movie_el with
  | None => Raise TypeError
  | Some img =>
      match alt img with
      | Some a => Return a
      | None => Raise KeyError
      end
  end.

(** The titles a page shows, in the order of its posters. *)
Definition page_titles (page : soup) : list string :=
  flat_map (fun el => match poster_title el with
                      | Return a => [a]
                      | _ => []
                      end) (poster_containers page).

(** [int(soup.find("h1", ...).text.split()[-2])] *)
Definition movies_count_of (page : soup) : outcome Z :=
  match section_heading page with
  | None => Raise AttributeError
  | Some heading =>
      match list_getitem (split heading) (-2) with
      | Return token => int token
      | Raise e => Raise e
      | Unmodelled => Unmodelled
      end
  end.

(** A computation that leaves both attributes of the instance alone. *)
Definition keeps_attributes {A : Type} (m : M A) : Prop :=
  forall s o s', m s = (o, s') ->
    _watchlist s' = _watchlist s /\ _summary s' = _summary s.

(** A computation that leaves [self._summary] alone. *)
Definition keeps_summary {A : Type} (m : M A) : Prop :=
  forall s o s', m s = (o, s') -> _summary s' = _summary s.

(** The headings and counts on which the model of the builtins is exact.
    [split] and [int] know the ASCII whitespace and digits only, and
    [int] has no limit on the number of digits where Python refuses more
    than 4300: a plain heading is ASCII text of at most 4300 characters.
    The progress bar left out of [while_pages] fails on totals beyond the
    range of a float: a modest count is far below that. *)
Definition ascii_text (s : string) : bool :=
  forallb (fun c => (nat_of_ascii c <? 128)%nat) (list_ascii_of_string s).

Definition plain_heading (page : soup) : Prop :=
  match section_heading page with
  | None => True
  | Some heading =>
      ascii_text heading = true /\ (String.length heading <= 4300)%nat
  end.

Definition modest_count (n : Z) : Prop := 0 <= n < 2 ^ 1000.

(** A word of a heading: not empty, no whitespace in it. *)
Fixpoint no_space (w : string) : bool :=
  match w with
  | EmptyString => true
  | String c rest => negb (is_space c) && no_space rest
  end.

Definition is_word (w : string) : bool := nonempty w && no_space w.

(** ** Basic facts *)

Lemma logged_logged s es es' : logged (logged s es) es' = logged s (es ++ es').
Proof. unfold logged; simpl. by rewrite <- app_assoc. Qed.

Lemma logged_nil s : logged s [] = s.
Proof. destruct s; unfold logged; simpl. by rewrite app_nil_r. Qed.

Lemma pages_fetched_app t t' :
  pages_fetched (t ++ t') = pages_fetched t ++ pages_fetched t'.
Proof. apply flat_map_app. Qed.

Lemma availability_calls_app t t' :
  availability_calls (t ++ t') = (availability_calls t + availability_calls t')%nat.
Proof. unfold availability_calls. by rewrite List.filter_app, length_app. Qed.

Lemma availability_calls_cons e es :
  availability_calls (e :: es)
  = ((match e with Get (WatchProviders _) => 1 | _ => 0 end) + availability_calls es)%nat.
Proof. unfold availability_calls. simpl. by destruct e as [[] |]. Qed.

Lemma not_ok_test (code : Z) : code <> OK -> negb (code =? OK) = true.
Proof. intros H. apply negb_true_iff, Z.eqb_neq, H. Qed.

(** The monad steps, as rewriting rules. *)
Section Steps.

Context {A B : Type}.

Lemma bind_return (m : M A) (k : A -> M B) s a s' :
  m s = (Return a, s') -> bind m k s = k a s'.
Proof. intros H. unfold bind. by rewrite H. Qed.

Lemma bind_raise (m : M A) (k : A -> M B) s e s' :
  m s = (Raise e, s') -> bind m k s = (Raise e, s').
Proof. intros H. unfold bind. by rewrite H. Qed.

Lemma bind_unmodelled (m : M A) (k : A -> M B) s s' :
  m s = (Unmodelled, s') -> bind m k s = (Unmodelled, s').
Proof. intros H. unfold bind. by rewrite H. Qed.

(** A computation that returns had every step before it return. *)
Lemma bind_inv (m : M A) (k : A -> M B) s b s' :
  bind m k s = (Return b, s') ->
  exists a s1, m s = (Return a, s1) /\ k a s1 = (Return b, s').
Proof.
  unfold bind. destruct (m s) as [[a | e |] s1]; intros H; try discriminate.
  by exists a, s1.
Qed.

End Steps.

Section Facts.

Variable net : list event -> request -> reply.

Lemma requests_get_responded r s resp :
  net (trace s) r = Responded resp ->
  requests_get net r s = (Return resp, logged s [Get r]).
Proof. intros H. unfold requests_get. by rewrite H. Qed.

Lemma requests_get_trace r s (o : outcome Response) s' :
  requests_get net r s = (o, s') -> s' = logged s [Get r].
Proof.
  unfold requests_get. destruct (net (trace s) r); intros H; by inversion H.
Qed.

(** *** get_movie_id *)

(** A status other than 200 is logged and answered by [None]. *)
Lemma get_movie_id_not_ok t s resp :
  net (trace s) (SearchMovie t) = Responded resp ->
  status_code resp <> OK ->
  get_movie_id net t s
  = (Return JNull,
     logged s [Get (SearchMovie t); LogError (SearchMovie t) (status_code resp)]).
Proof.
  intros Hnet Hcode. unfold get_movie_id.
  rewrite (bind_return _ _ _ _ _ (requests_get_responded _ _ _ Hnet)).
  rewrite (not_ok_test _ Hcode). unfold bind, emit, ret.
  by rewrite logged_logged.
Qed.

(** On a 200 whose body has a first result with an [id], that [id] is
    returned. *)
Lemma get_movie_id_first t s resp body results first movie_id :
  net (trace s) (SearchMovie t) = Responded resp ->
  status_code resp = OK ->
  json_body resp = Some body ->
  getitem body (KStr "results") = Return results ->
  getitem results (KInt 0) = Return first ->
  getitem first (KStr "id") = Return movie_id ->
  get_movie_id net t s = (Return movie_id, logged s [Get (SearchMovie t)]).
Proof.
  intros Hnet Hcode Hbody Hres Hfirst Hid. unfold get_movie_id.
  rewrite (bind_return _ _ _ _ _ (requests_get_responded _ _ _ Hnet)).
  rewrite Hcode. simpl. unfold json_of. rewrite Hbody.
  unfold bind, ret, lift. by rewrite Hres, Hfirst, Hid.
Qed.

(** On a 200 whose result list is empty, the subscript [[0]] raises. *)
Lemma get_movie_id_no_results t s resp body :
  net (trace s) (SearchMovie t) = Responded resp ->
  status_code resp = OK ->
  json_body resp = Some body ->
  getitem body (KStr "results") = Return (JList []) ->
  get_movie_id net t s = (Raise IndexError, logged s [Get (SearchMovie t)]).
Proof.
  intros Hnet Hcode Hbody Hres. unfold get_movie_id.
  rewrite (bind_return _ _ _ _ _ (requests_get_responded _ _ _ Hnet)).
  rewrite Hcode. simpl. unfold json_of. rewrite Hbody.
  unfold bind, ret, lift. by rewrite Hres.
Qed.

(** [get_movie_id] sends the search request and nothing else. *)
Lemma get_movie_id_trace t s o s' :
  get_movie_id net t s = (o, s') ->
  exists es, s' = logged s (Get (SearchMovie t) :: es) /\
             availability_calls es = O /\ pages_fetched es = [].
Proof.
  unfold get_movie_id, bind. intros H.
  destruct (requests_get net (SearchMovie t) s) as [[resp | e |] s1] eqn:Hget;
    apply requests_get_trace in Hget; subst s1.
  - destruct (negb (status_code resp =? OK)).
    + unfold emit, ret in H. inversion H; subst.
      exists [LogError (SearchMovie t) (status_code resp)].
      by rewrite logged_logged.
    + exists []. split; [| done].
      unfold json_of, lift, ret, raise in H.
      destruct (json_body resp) as [body |]; [| by inversion H].
      destruct (getitem body (KStr "results")) as [rs | |]; [| by inversion H ..].
      destruct (getitem rs (KInt 0)) as [f | |]; [| by inversion H ..].
      destruct (getitem f (KStr "id")) as [i | |]; by inversion H.
  - exists []. by inversion H.
  - exists []. by inversion H.
Qed.

(** *** Steps that leave the store alone *)

Lemma silent_lift {A} (o : outcome A) : silent (lift o).
Proof. by intros s. Qed.

Lemma silent_ret {A} (a : A) : silent (ret a).
Proof. by intros s. Qed.

Lemma silent_raise {A} (e : exn) : silent (@raise A e).
Proof. by intros s. Qed.

Lemma silent_bind {A B} (m : M A) (k : A -> M B) :
  silent m -> (forall a, silent (k a)) -> silent (bind m k).
Proof.
  intros Hm Hk s. unfold bind. specialize (Hm s).
  destruct (m s) as [[a | e |] s1]; simpl in *; subst; [apply Hk | done | done].
Qed.

Lemma silent_try_except {A} (body handler : M A) handles :
  silent body -> silent handler -> silent (try_except body handles handler).
Proof.
  intros Hb Hh s. unfold try_except. specialize (Hb s).
  destruct (body s) as [[a | e |] s1]; simpl in *; subst; try done.
  destruct (handles e); [apply Hh | done].
Qed.

Lemma silent_comprehension {A B} (f : A -> M B) l :
  (forall x, silent (f x)) -> silent (comprehension f l).
Proof.
  intros Hf. induction l as [| x rest IH]; simpl.
  - apply silent_ret.
  - apply silent_bind; [apply Hf |]. intros y.
    apply silent_bind; [apply IH |]. intros ys. apply silent_ret.
Qed.

Lemma silent_json_of r : silent (json_of r).
Proof. unfold json_of. destruct (json_body r); [apply silent_ret | apply silent_raise]. Qed.

Lemma silent_as_str j : silent (as_str j).
Proof. destruct j; simpl; first [apply silent_ret | apply silent_lift]. Qed.

Create HintDb silent.
#[local] Hint Resolve silent_lift silent_ret silent_raise silent_json_of
  silent_as_str : silent.

(** *** get_streaming_platforms *)

(** The list comprehension keeps one name per entry, in order. *)
Lemma comprehension_names entries names s :
  Forall2 (fun e n => getitem e (KStr "provider_name") = Return (JStr n)) entries names ->
  comprehension provider_name_of entries s = (Return names, s).
Proof.
  intros H. induction H as [| e n entries names He _ IH]; simpl; [done |].
  unfold bind at 1. unfold provider_name_of at 1. unfold bind at 1, lift.
  rewrite He. simpl. unfold ret at 1. unfold bind at 1. by rewrite IH.
Qed.

(** A status other than 200 is logged and answered by the empty list. *)
Lemma get_streaming_platforms_not_ok country movie_id s resp :
  net (trace s) (WatchProviders movie_id) = Responded resp ->
  status_code resp <> OK ->
  get_streaming_platforms net country movie_id s
  = (Return [],
     logged s [Get (WatchProviders movie_id);
               LogError (WatchProviders movie_id) (status_code resp)]).
Proof.
  intros Hnet Hcode. unfold get_streaming_platforms.
  rewrite (bind_return _ _ _ _ _ (requests_get_responded _ _ _ Hnet)).
  rewrite (not_ok_test _ Hcode). unfold bind, emit, ret.
  by rewrite logged_logged.
Qed.

(** On a 200 with a [flatrate] list for the country, the names of its
    entries are returned as they come. *)
Lemma get_streaming_platforms_names country movie_id s resp body results by_country entries names :
  net (trace s) (WatchProviders movie_id) = Responded resp ->
  status_code resp = OK ->
  json_body resp = Some body ->
  getitem body (KStr "results") = Return results ->
  getitem results (KStr country) = Return by_country ->
  getitem by_country (KStr "flatrate") = Return (JList entries) ->
  Forall2 (fun e n => getitem e (KStr "provider_name") = Return (JStr n)) entries names ->
  get_streaming_platforms net country movie_id s
  = (Return names, logged s [Get (WatchProviders movie_id)]).
Proof.
  intros Hnet Hcode Hbody Hres Hcountry Hflat Hnames. unfold get_streaming_platforms.
  rewrite (bind_return _ _ _ _ _ (requests_get_responded _ _ _ Hnet)).
  rewrite Hcode. simpl. unfold try_except, json_of. rewrite Hbody.
  unfold bind at 1, ret at 1. unfold bind at 1, lift at 1. rewrite Hres.
  unfold bind at 1, lift at 1. rewrite Hcountry.
  unfold bind at 1, lift at 1. rewrite Hflat.
  unfold bind at 1, lift at 1. simpl.
  by rewrite (comprehension_names _ _ _ Hnames).
Qed.

(** A missing country (or any other missing key) is answered by the
    empty list. *)
Lemma get_streaming_platforms_no_country country movie_id s resp body results :
  net (trace s) (WatchProviders movie_id) = Responded resp ->
  status_code resp = OK ->
  json_body resp = Some body ->
  getitem body (KStr "results") = Return results ->
  getitem results (KStr country) = Raise KeyError ->
  get_streaming_platforms net country movie_id s
  = (Return [], logged s [Get (WatchProviders movie_id)]).
Proof.
  intros Hnet Hcode Hbody Hres Hcountry. unfold get_streaming_platforms.
  rewrite (bind_return _ _ _ _ _ (requests_get_responded _ _ _ Hnet)).
  rewrite Hcode. simpl. unfold try_except, json_of. rewrite Hbody.
  unfold bind at 1, ret at 1. unfold bind at 1, lift at 1. rewrite Hres.
  unfold bind at 1, lift at 1. by rewrite Hcountry.
Qed.

(** [get_streaming_platforms] sends the availability request and nothing
    else. *)
Lemma get_streaming_platforms_trace country movie_id s o s' :
  get_streaming_platforms net country movie_id s = (o, s') ->
  exists es, s' = logged s (Get (WatchProviders movie_id) :: es) /\
             availability_calls es = O /\ pages_fetched es = [].
Proof.
  unfold get_streaming_platforms. unfold bind at 1. intros H.
  destruct (requests_get net (WatchProviders movie_id) s) as [[resp | e |] s1] eqn:Hget;
    apply requests_get_trace in Hget; subst s1.
  - destruct (negb (status_code resp =? OK)).
    + unfold bind, emit, ret in H. inversion H; subst.
      exists [LogError (WatchProviders movie_id) (status_code resp)].
      by rewrite logged_logged.
    + exists []. split; [| done].
      match type of H with ?m _ = _ => assert (Hs : silent m) end.
      { apply silent_try_except; [| apply silent_ret].
        repeat (apply silent_bind; [auto with silent | intros ?]).
        apply silent_comprehension. intros x.
        apply silent_bind; auto with silent. }
      specialize (Hs (logged s [Get (WatchProviders movie_id)])).
      rewrite H in Hs. simpl in Hs. by subst.
  - exists []. by inversion H.
  - exists []. by inversion H.
Qed.

(** *** get_movie *)

Lemma get_movie_absent country t s s1 :
  get_movie_id net t s = (Return JNull, s1) ->
  get_movie net country t s = (Return {| title := t; platforms := [] |}, s1).
Proof. intros H. unfold get_movie. by rewrite (bind_return _ _ _ _ _ H). Qed.

Lemma get_movie_found country t s movie_id s1 o s2 :
  movie_id <> JNull ->
  get_movie_id net t s = (Return movie_id, s1) ->
  get_streaming_platforms net country movie_id s1 = (o, s2) ->
  get_movie net country t s = (outcome_map (Build_Movie t) o, s2).
Proof.
  intros Hid H1 H2. unfold get_movie. rewrite (bind_return _ _ _ _ _ H1).
  destruct movie_id; try done; unfold bind; rewrite H2; by destruct o.
Qed.

(** [get_movie] fetches no listing page. *)
Lemma get_movie_trace country t s o s' :
  get_movie net country t s = (o, s') ->
  exists es, s' = logged s es /\ pages_fetched es = [].
Proof.
  unfold get_movie. unfold bind at 1. intros H.
  destruct (get_movie_id net t s) as [[movie_id | e |] s1] eqn:H1;
    destruct (get_movie_id_trace _ _ _ _ H1) as (es1 & -> & _ & Hp1);
    try (inversion H; subst; by exists (Get (SearchMovie t) :: es1)).
  assert (Hfound : forall o2 s2,
    get_streaming_platforms net country movie_id
      (logged s (Get (SearchMovie t) :: es1)) = (o2, s2) ->
    exists es, s2 = logged s es /\ pages_fetched es = []).
  { intros o2 s2 H2.
    destruct (get_streaming_platforms_trace _ _ _ _ _ H2) as (es2 & -> & _ & Hp2).
    eexists. rewrite logged_logged. split; [done |].
    rewrite pages_fetched_app. simpl in *. by rewrite Hp1, Hp2. }
  destruct movie_id;
    try (unfold bind in H;
         destruct (get_streaming_platforms net country _ _) as [[ps | e |] s2] eqn:H2;
         inversion H; subst; by eapply Hfound).
  inversion H; subst. by exists (Get (SearchMovie t) :: es1).
Qed.

(** *** get_page *)

Variable html_parser : string -> soup.
Variable username : string.
Variable country : string.

Lemma get_page_not_ok page s resp :
  net (trace s) (WatchlistPage username page) = Responded resp ->
  status_code resp <> OK ->
  get_page net username page s
  = (Return None,
     logged s [Get (WatchlistPage username page);
               LogError (WatchlistPage username page) (status_code resp)]).
Proof.
  intros Hnet Hcode. unfold get_page.
  rewrite (bind_return _ _ _ _ _ (requests_get_responded _ _ _ Hnet)).
  rewrite (not_ok_test _ Hcode). unfold bind, emit, ret.
  by rewrite logged_logged.
Qed.

Lemma get_page_ok page s resp :
  net (trace s) (WatchlistPage username page) = Responded resp ->
  status_code resp = OK ->
  get_page net username page s
  = (Return (Some (text resp)), logged s [Get (WatchlistPage username page)]).
Proof.
  intros Hnet Hcode. unfold get_page.
  rewrite (bind_return _ _ _ _ _ (requests_get_responded _ _ _ Hnet)).
  by rewrite Hcode.
Qed.

(** [get_page] requests its page, once, whatever comes of it. *)
Lemma get_page_trace page s o s' :
  get_page net username page s = (o, s') ->
  exists es, s' = logged s (Get (WatchlistPage username page) :: es) /\
             pages_fetched es = [].
Proof.
  unfold get_page, bind. intros H.
  destruct (requests_get net (WatchlistPage username page) s) as [[resp | e |] s1] eqn:Hget;
    apply requests_get_trace in Hget; subst s1.
  - destruct (negb (status_code resp =? OK)).
    + unfold emit, ret in H. inversion H; subst.
      exists [LogError (WatchlistPage username page) (status_code resp)].
      by rewrite logged_logged.
    + exists []. by inversion H.
  - exists []. by inversion H.
  - exists []. by inversion H.
Qed.

Lemma get_page_pages page s o s' :
  get_page net username page s = (o, s') ->
  pages_fetched (trace s') = pages_fetched (trace s) ++ [page].
Proof.
  intros H. destruct (get_page_trace _ _ _ _ H) as (es & -> & Hes).
  simpl. rewrite pages_fetched_app. simpl. by rewrite Hes.
Qed.

(** *** The loop over the pages *)

Lemma keeps_pages_bind {A B} (m : M A) (k : A -> M B) :
  keeps_pages m -> (forall a, keeps_pages (k a)) -> keeps_pages (bind m k).
Proof.
  intros Hm Hk s o s'. unfold bind.
  destruct (m s) as [[a | e |] s1] eqn:H1; intros H.
  - rewrite (Hk _ _ _ _ H). eapply Hm, H1.
  - inversion H; subst. eapply Hm, H1.
  - inversion H; subst. eapply Hm, H1.
Qed.

Lemma keeps_pages_silent {A} (m : M A) : silent m -> keeps_pages m.
Proof. intros Hm s o s' H. specialize (Hm s). rewrite H in Hm. simpl in Hm. by subst. Qed.

Lemma keeps_pages_for_each {A} (l : list A) (body : A -> M unit) :
  (forall x, keeps_pages (body x)) -> keeps_pages (for_each l body).
Proof.
  intros Hb. induction l as [| x rest IH]; simpl.
  - apply keeps_pages_silent, silent_ret.
  - apply keeps_pages_bind; [apply Hb | intros _; apply IH].
Qed.

Lemma keeps_pages_get_movie t : keeps_pages (get_movie net country t).
Proof.
  intros s o s' H. destruct (get_movie_trace _ _ _ _ _ H) as (es & -> & Hes).
  simpl. rewrite pages_fetched_app, Hes. apply app_nil_r.
Qed.

Lemma keeps_pages_watchlist_append m : keeps_pages (watchlist_append m).
Proof.
  intros s o s'. unfold watchlist_append.
  destruct (_watchlist s); intros H; by inversion H.
Qed.

Lemma keeps_pages_resolve_poster el :
  keeps_pages (resolve_poster net country el).
Proof.
  unfold resolve_poster.
  apply keeps_pages_bind; [apply keeps_pages_silent, silent_lift |]. intros t.
  apply keeps_pages_bind; [apply keeps_pages_get_movie |]. intros m.
  apply keeps_pages_watchlist_append.
Qed.

(** A later page that answers with a status other than 200 ends the loop
    in [TypeError]: [get_page] returns [None] and the parser is handed
    it. *)
Lemma while_pages_failed_fetch fuel num_of_pages current_page page s s1 resp :
  current_page <= num_of_pages ->
  for_each (poster_containers page) (resolve_poster net country) s = (Return tt, s1) ->
  net (trace s1) (WatchlistPage username (current_page + 1)) = Responded resp ->
  status_code resp <> OK ->
  while_pages net html_parser username country (S fuel) num_of_pages current_page page s
  = (Raise TypeError,
     logged s1 [Get (WatchlistPage username (current_page + 1));
                LogError (WatchlistPage username (current_page + 1)) (status_code resp)]).
Proof.
  intros Hguard Hfor Hnet Hcode. simpl.
  apply Z.leb_le in Hguard. rewrite Hguard.
  rewrite (bind_return _ _ _ _ _ Hfor).
  by rewrite (bind_return _ _ _ _ _ (get_page_not_ok _ _ _ Hnet Hcode)).
Qed.

(** Once the fuel exceeds the number of pages left, it no longer matters:
    the loop never runs out of it. *)
Lemma while_pages_fuel fuel1 : forall fuel2 num_of_pages current_page page s,
  (Z.to_nat (num_of_pages + 1 - current_page) < fuel1)%nat ->
  (Z.to_nat (num_of_pages + 1 - current_page) < fuel2)%nat ->
  while_pages net html_parser username country fuel1 num_of_pages current_page page s
  = while_pages net html_parser username country fuel2 num_of_pages current_page page s.
Proof.
  induction fuel1 as [| fuel1 IH]; intros fuel2 np cp page s H1 H2; [lia |].
  destruct fuel2 as [| fuel2]; [lia |]. simpl.
  destruct (cp <=? np) eqn:Hguard; [| done].
  apply Z.leb_le in Hguard. unfold bind.
  destruct (for_each _ _ s) as [[[] | |] s1]; try done.
  destruct (get_page _ _ _ s1) as [[html | |] s2]; try done.
  destruct (BeautifulSoup _ html s2) as [[page' | |] s3]; try done.
  apply IH; lia.
Qed.

(** When the loop completes, it has fetched every page from the one after
    the current page up to the one after the last. *)
Lemma while_pages_pages fuel : forall num_of_pages current_page page s s',
  current_page <= num_of_pages + 1 ->
  while_pages net html_parser username country fuel num_of_pages current_page page s
  = (Return tt, s') ->
  pages_fetched (trace s')
  = pages_fetched (trace s) ++ seqZ (current_page + 1) (num_of_pages + 1 - current_page).
Proof.
  induction fuel as [| fuel IH]; intros np cp page s s' Hle; simpl; [done |].
  destruct (cp <=? np) eqn:Hguard.
  - apply Z.leb_le in Hguard. intros H.
    apply bind_inv in H as ([] & s1 & Hfor & H).
    apply bind_inv in H as (html & s2 & Hget & H).
    apply bind_inv in H as (page' & s3 & Hsoup & H).
    apply IH in H; [| lia]. rewrite H.
    assert (Hs3 : s3 = s2).
    { unfold BeautifulSoup in Hsoup. destruct html; by inversion Hsoup. }
    subst s3. rewrite (get_page_pages _ _ _ _ Hget).
    rewrite (keeps_pages_for_each _ _ keeps_pages_resolve_poster _ _ _ Hfor).
    rewrite <- app_assoc. f_equal.
    rewrite (seqZ_cons (cp + 1)); [| lia]. simpl. do 2 f_equal; lia.
  - apply Z.leb_gt in Hguard. intros H. inversion H; subst.
    replace (np + 1 - cp) with 0 by lia. by rewrite app_nil_r.
Qed.

(** *** watchlist *)

#[local] Arguments while_pages : simpl never.

(** A failed first page: the empty list, after one request. *)
Lemma watchlist_first_page_failed t resp :
  net t (WatchlistPage username 1) = Responded resp ->
  status_code resp <> OK ->
  watchlist net html_parser username country (fresh t)
  = (Return [],
     with_watchlist
       (logged (fresh t) [Get (WatchlistPage username 1);
                          LogError (WatchlistPage username 1) (status_code resp)])
       []).
Proof.
  intros Hnet Hcode. unfold watchlist, bind at 1. simpl.
  unfold bind at 1. simpl.
  rewrite (bind_return _ _ _ _ _ (get_page_not_ok 1 (with_watchlist (fresh t) []) resp Hnet Hcode)).
  done.
Qed.

(** What a completed traversal has fetched: every page from 1 to the one
    after the last. *)
Lemma watchlist_pages t resp heading token movies_count l s' :
  net t (WatchlistPage username 1) = Responded resp ->
  status_code resp = OK ->
  section_heading (html_parser (text resp)) = Some heading ->
  list_getitem (split heading) (-2) = Return token ->
  int token = Return movies_count ->
  0 <= movies_count ->
  watchlist net html_parser username country (fresh t) = (Return l, s') ->
  pages_fetched (trace s')
  = pages_fetched t ++ seqZ 1 (num_of_pages_of movies_count + 1).
Proof.
  intros Hnet Hcode Hhead Htok Hint Hpos H.
  assert (Hnp : 1 <= num_of_pages_of movies_count).
  { unfold num_of_pages_of. pose proof (Z.div_pos movies_count (7 * 4)). lia. }
  unfold watchlist, bind at 1 in H. simpl in H. unfold bind at 1 in H. simpl in H.
  rewrite (bind_return _ _ _ _ _ (get_page_ok 1 (with_watchlist (fresh t) []) resp Hnet Hcode)) in H.
  unfold bind at 1 in H. simpl in H.
  unfold bind at 1, lift at 1 in H. rewrite Hhead in H.
  unfold bind at 1, lift at 1 in H. rewrite Htok in H.
  unfold bind at 1, lift at 1 in H. rewrite Hint in H.
  apply bind_inv in H as ([] & s1 & Hloop & H).
  apply bind_inv in H as (result & s2 & Hattr & H).
  inversion Hattr; subst s2.
  assert (s' = s1) as -> by (destruct result; by inversion H).
  apply while_pages_pages in Hloop; [| lia]. rewrite Hloop. simpl.
  rewrite pages_fetched_app. simpl. rewrite <- app_assoc. f_equal.
  rewrite (seqZ_cons 1); [| lia]. simpl; f_equal; f_equal; lia.
Qed.

(** What [watchlist] returns is what it has stored. *)
Lemma watchlist_returns_attribute s l s' :
  watchlist net html_parser username country s = (Return l, s') ->
  l = [] \/ _watchlist s' = Some l.
Proof.
  unfold watchlist. intros H.
  apply bind_inv in H as (cached & s0 & Hc & H). inversion Hc; subst.
  destruct (_watchlist s0) as [[| m ms] |] eqn:Hw;
    try (inversion H; subst; by right).
  all: apply bind_inv in H as ([] & s1 & _ & H);
    apply bind_inv in H as (html & s2 & _ & H);
    destruct html as [html |]; [| inversion H; by left];
    apply bind_inv in H as (page & s3 & _ & H);
    apply bind_inv in H as (heading & s4 & _ & H);
    apply bind_inv in H as (token & s5 & _ & H);
    apply bind_inv in H as (n & s6 & _ & H);
    apply bind_inv in H as ([] & s7 & _ & H);
    apply bind_inv in H as (result & s8 & Hattr & H);
    inversion Hattr; subst;
    destruct (_watchlist s8) eqn:Hw8; inversion H; subst; by right.
Qed.

(** A watchlist that is not empty is computed once: the next access
    returns it and touches nothing. *)
Lemma watchlist_cached s m l s' :
  watchlist net html_parser username country s = (Return (m :: l), s') ->
  watchlist net html_parser username country s' = (Return (m :: l), s').
Proof.
  intros H. destruct (watchlist_returns_attribute _ _ _ H) as [? | Hw]; [done |].
  unfold watchlist, bind at 1, getattr_watchlist. by rewrite Hw.
Qed.

(** *** summary *)

Lemma append_nil_r (t : string) : t +:+ EmptyString = t.
Proof. induction t as [| c t IH]; [done |]. change (String c (t +:+ "") = String c t). by rewrite IH. Qed.

Lemma append_assoc (a b c : string) : (a +:+ b) +:+ c = a +:+ (b +:+ c).
Proof.
  induction a as [| x a IH]; [done |].
  change (String x ((a +:+ b) +:+ c) = String x (a +:+ (b +:+ c))). by rewrite IH.
Qed.

Lemma appends_iadd t : appends (summary_iadd t) t.
Proof. intros s cur H. unfold summary_iadd. by rewrite H. Qed.

Lemma appends_seq m1 m2 t1 t2 :
  appends m1 t1 -> appends m2 t2 -> appends (m1 ;;; m2) (t1 +:+ t2).
Proof.
  intros H1 H2 s cur Hs. unfold bind. rewrite (H1 _ _ Hs).
  rewrite (H2 (with_summary s (cur +:+ t1)) (cur +:+ t1)); [| done].
  unfold with_summary; simpl. by rewrite append_assoc.
Qed.

Lemma appends_for_each {A} (l : list A) body (f : A -> string) :
  (forall x, appends (body x) (f x)) ->
  appends (for_each l body) (str_concat (map f l)).
Proof.
  intros Hb. induction l as [| x rest IH]; simpl.
  - intros s cur Hs. unfold ret, with_summary. rewrite append_nil_r.
    destruct s; simpl in *; by subst.
  - apply appends_seq; [apply Hb | apply IH].
Qed.

(** What [summary] computes from the watchlist, on an instance that has
    no summary yet. *)
Lemma summary_report s ms s1 :
  _summary s = None ->
  watchlist net html_parser username country s = (Return ms, s1) ->
  summary net html_parser username country s
  = (Return (report ms), with_summary s1 (report ms)).
Proof.
  intros Hs Hw. unfold summary, bind at 1, getattr_summary. rewrite Hs.
  rewrite (bind_return _ _ _ _ _ Hw). unfold bind at 1, set_summary.
  pose proof (appends_seq _ _ _ _
    (appends_for_each ms
       (fun movie => summary_iadd (Movie_str movie +:+ nl) ;;;
                     summary_iadd (str_times "*" 50 +:+ nl))
       movie_entry
       (fun m => appends_seq _ _ _ _ (appends_iadd _) (appends_iadd _)))
    (appends_seq _ _ _ _ (appends_iadd summary_header)
       (appends_for_each (Counter (flat_map platforms ms))
          (fun pc => summary_iadd (fst pc +:+ ": " +:+ str_of_nat (snd pc) +:+ nl))
          counter_line (fun pc => appends_iadd _)))) as Happ.
  specialize (Happ (with_summary s1 EmptyString) EmptyString eq_refl).
  unfold bind in Happ |- *. unfold with_summary in Happ |- *. simpl in Happ |- *.
  destruct (for_each ms _ _) as [[[] | |] s2]; try discriminate.
  destruct (summary_iadd _ s2) as [[[] | |] s3]; try discriminate.
  destruct (for_each (Counter _) _ s3) as [[[] | |] s4]; try discriminate.
  inversion Happ; subst. reflexivity.
Qed.

Lemma report_nonempty ms : nonempty (report ms) = true.
Proof.
  unfold report. destruct (str_concat (map movie_entry ms)); done.
Qed.

(** The summary is computed once: the next access returns it and touches
    nothing. *)
Lemma summary_cached s t s' :
  _summary s = None ->
  summary net html_parser username country s = (Return t, s') ->
  summary net html_parser username country s' = (Return t, s').
Proof.
  intros Hs H.
  assert (exists ms s1, watchlist net html_parser username country s = (Return ms, s1))
    as (ms & s1 & Hw).
  { unfold summary, bind at 1, getattr_summary in H. rewrite Hs in H.
    apply bind_inv in H as (ms & s1 & Hw & _). eauto. }
  rewrite (summary_report _ _ _ Hs Hw) in H. inversion H; subst.
  pose proof (report_nonempty ms) as Hne.
  unfold summary, bind at 1, getattr_summary. simpl.
  destruct (report ms); done.
Qed.

End Facts.

(** ** Counter *)

Section CounterFacts.

Implicit Types (c : list (string * nat)) (l : list string) (k p : string).

Lemma counter_get_incr_same c k :
  counter_get (counter_incr k c) k = S (counter_get c k).
Proof.
  induction c as [| [k' n] rest IH]; simpl.
  - by rewrite String.eqb_refl.
  - destruct (String.eqb k k') eqn:E; simpl; rewrite E; [done | apply IH].
Qed.

Lemma counter_get_incr_other c k p :
  p <> k -> counter_get (counter_incr k c) p = counter_get c p.
Proof.
  intros Hne. apply String.eqb_neq in Hne.
  induction c as [| [k' n] rest IH]; simpl.
  - by rewrite Hne.
  - destruct (String.eqb k k') eqn:E; simpl.
    + apply String.eqb_eq in E as ->. by rewrite Hne.
    + by rewrite IH.
Qed.

Lemma counter_get_fold l : forall c p,
  counter_get (fold_left (fun c k => counter_incr k c) l c) p
  = (counter_get c p + occurrences p l)%nat.
Proof.
  unfold occurrences.
  induction l as [| x rest IH]; intros c p; simpl; [lia |].
  rewrite IH. destruct (String.eqb p x) eqn:E; simpl.
  - apply String.eqb_eq in E as ->. rewrite counter_get_incr_same. lia.
  - apply String.eqb_neq in E. by rewrite counter_get_incr_other.
Qed.

(** A counter holds, for every name, the number of its occurrences. *)
Lemma counter_get_Counter l p : counter_get (Counter l) p = occurrences p l.
Proof. unfold Counter. by rewrite counter_get_fold. Qed.

Lemma occurrences_app p l l' :
  occurrences p (l ++ l') = (occurrences p l + occurrences p l')%nat.
Proof. unfold occurrences. by rewrite List.filter_app, length_app. Qed.

Lemma occurrences_Permutation p l l' :
  Permutation l l' -> occurrences p l = occurrences p l'.
Proof.
  unfold occurrences. induction 1; simpl; try congruence.
  - destruct (String.eqb p x); simpl; congruence.
  - destruct (String.eqb p x), (String.eqb p y); simpl; congruence.
Qed.

(** The occurrences over all titles are the sum over the titles. *)
Lemma occurrences_flat_map p ms :
  occurrences p (flat_map platforms ms)
  = list_sum (map (fun m => occurrences p (platforms m)) ms).
Proof.
  induction ms as [| m rest IH]; simpl; [done |].
  by rewrite occurrences_app, IH.
Qed.

(** In a list without repetition a name occurs once or not at all. *)
Lemma occurrences_NoDup p l :
  NoDup l -> occurrences p l = if existsb (String.eqb p) l then 1%nat else 0%nat.
Proof.
  unfold occurrences. induction 1 as [| x l Hx Hl IH]; simpl; [done |].
  destruct (String.eqb p x) eqn:E; simpl; [| done].
  apply String.eqb_eq in E as ->. rewrite IH.
  destruct (existsb (String.eqb x) l) eqn:Hex; [| done].
  apply existsb_exists in Hex as (y & Hy & Exy).
  apply String.eqb_eq in Exy as ->. by apply list_elem_of_In in Hy.
Qed.

Lemma occurrences_titles_carrying p ms :
  Forall (fun m => NoDup (platforms m)) ms ->
  occurrences p (flat_map platforms ms) = titles_carrying p ms.
Proof.
  unfold titles_carrying.
  induction 1 as [| m rest Hm _ IH]; simpl; [done |].
  rewrite occurrences_app, IH, (occurrences_NoDup _ _ Hm). unfold carries at 2.
  by destruct (existsb (String.eqb p) (platforms m)).
Qed.

(** The keys of a counter after one more name. *)
Lemma keys_counter_incr c k :
  map fst (counter_incr k c)
  = if existsb (String.eqb k) (map fst c) then map fst c else map fst c ++ [k].
Proof.
  induction c as [| [k' n] rest IH]; simpl; [done |].
  destruct (String.eqb k k'); simpl; [done |].
  rewrite IH. by destruct (existsb (String.eqb k) (map fst rest)).
Qed.

Lemma filter_filter {A} (f g : A -> bool) (l : list A) :
  List.filter f (List.filter g l) = List.filter (fun x => g x && f x) l.
Proof.
  induction l as [| x rest IH]; simpl; [done |].
  destruct (g x); simpl; [destruct (f x) |]; by rewrite IH.
Qed.

Lemma existsb_app_one k ks y :
  existsb (String.eqb y) (ks ++ [k]) = existsb (String.eqb y) ks || String.eqb k y.
Proof.
  rewrite existsb_app. simpl. by rewrite orb_false_r, (String.eqb_sym y k).
Qed.

(** The keys of a counter are its old keys, then the new names in the
    order they are first seen. *)
Lemma keys_fold l : forall c,
  map fst (fold_left (fun c k => counter_incr k c) l c)
  = map fst c
    ++ List.filter (fun y => negb (existsb (String.eqb y) (map fst c))) (first_seen l).
Proof.
  induction l as [| x rest IH]; intros c; simpl; [by rewrite app_nil_r |].
  rewrite IH, keys_counter_incr, filter_filter.
  destruct (existsb (String.eqb x) (map fst c)) eqn:Hx; simpl.
  - f_equal. apply List.filter_ext. intros y.
    destruct (String.eqb x y) eqn:E; simpl; [| done].
    apply String.eqb_eq in E as <-. by rewrite Hx.
  - rewrite <- app_assoc. simpl. do 2 f_equal.
    apply List.filter_ext. intros y. rewrite existsb_app_one.
    by rewrite negb_orb, andb_comm.
Qed.

(** A counter lists its names in the order they are first seen. *)
Lemma keys_Counter l : map fst (Counter l) = first_seen l.
Proof.
  unfold Counter. rewrite keys_fold. simpl.
  induction (first_seen l) as [| y ys IH]; simpl; [done |]. by rewrite IH.
Qed.


Lemma NoDup_first_seen (l : list string) : NoDup (first_seen l).
Proof.
  induction l as [| x rest IH]; simpl; [constructor |].
  apply NoDup_cons. split.
  - intros Hx. apply list_elem_of_In, filter_In in Hx as [_ Hx].
    by rewrite String.eqb_refl in Hx.
  - apply NoDup_ListNoDup, List.NoDup_filter, NoDup_ListNoDup, IH.
Qed.

(** With distinct keys, the count listed with a name is the count the
    counter holds for it. *)
Lemma counter_get_entry (c : list (string * nat)) k n :
  NoDup (map fst c) -> In (k, n) c -> counter_get c k = n.
Proof.
  induction c as [| [k' n'] rest IH]; simpl; [done |].
  intros Hnd [Heq | Hin].
  - inversion Heq; subst. by rewrite String.eqb_refl.
  - apply NoDup_cons in Hnd as [Hk' Hnd].
    destruct (String.eqb k k') eqn:E; [| by apply IH].
    apply String.eqb_eq in E as ->. exfalso. apply Hk'.
    apply list_elem_of_In, in_map_iff. by exists (k', n).
Qed.

Lemma Counter_entry (l : list string) k n :
  In (k, n) (Counter l) -> n = occurrences k l.
Proof.
  intros Hin. rewrite <- counter_get_Counter. symmetry.
  apply counter_get_entry; [| done]. rewrite keys_Counter. apply NoDup_first_seen.
Qed.

End CounterFacts.

(** ** The properties of the specification *)

Import Scenario.

(** *** TMDB.get_movie_id *)

(** C1.  The specification has [get_movie_id] return an absent result,
    without raising, on a search that found nothing.  The code subscripts
    the decoded body unguarded.  On a 200 whose result list is empty it
    raises [IndexError]; on a 200 without the [results] key, or whose first
    result has no [id], it raises [KeyError]. *)
Theorem get_movie_id_raises_without_result :
  get_movie_id (net (failed 404) search_nothing []) "Alien" (fresh [])
  = (Raise IndexError, logged (fresh []) [Get (SearchMovie "Alien")])
  /\ get_movie_id (net (failed 404) search_without_results []) "Alien" (fresh [])
     = (Raise KeyError, logged (fresh []) [Get (SearchMovie "Alien")])
  /\ get_movie_id (net (failed 404) search_without_id []) "Alien" (fresh [])
     = (Raise KeyError, logged (fresh []) [Get (SearchMovie "Alien")]).
Proof. repeat split; vm_compute; reflexivity. Qed.

(** *** TMDB.get_movie *)






(** *** TMDB.get_streaming_platforms *)

(** C9, as stated: the platforms of a title would never hold a provider
    name twice.  Here the [flatrate] list of the response names Netflix in
    two entries, and so does the list returned. *)
Lemma duplicate_provider_names_kept :
  exists ps s',
    get_streaming_platforms (net (failed 404) search_hit ["Netflix"; "Netflix"])
      PL (JInt 348) (fresh []) = (Return ps, s')
    /\ ~ NoDup ps.
Proof.
  exists ["Netflix"; "Netflix"], (logged (fresh []) [Get (WatchProviders (JInt 348))]).
  split; [vm_compute; reflexivity |].
  intros H. apply NoDup_cons in H as [H _]. apply H. left.
Qed.

(** C9, amended.  On a 200 whose body lists [flatrate] entries for the
    country, [get_streaming_platforms] returns the provider name of every
    entry, in the order of the response: one name per entry, so a name the
    response repeats is repeated.  Whether a title is available depends
    only on there being a name, not on the order of the names. *)
Theorem platforms_follow_response (world : list event -> request -> reply)
    (country : string) (movie_id : json) (s : state) (resp : Response)
    (body results by_country : json) (entries : list json) (names : list string) :
  world (trace s) (WatchProviders movie_id) = Responded resp ->
  status_code resp = OK ->
  json_body resp = Some body ->
  getitem body (KStr "results") = Return results ->
  getitem results (KStr country) = Return by_country ->
  getitem by_country (KStr "flatrate") = Return (JList entries) ->
  Forall2 (fun e n => getitem e (KStr "provider_name") = Return (JStr n)) entries names ->
  get_streaming_platforms world country movie_id s
  = (Return names, logged s [Get (WatchProviders movie_id)])
  /\ length names = length entries
  /\ (forall t names',
        Permutation names names' ->
        available {| title := t; platforms := names' |}
        = available {| title := t; platforms := names |}).
Proof.
  intros Hnet Hcode Hbody Hres Hcountry Hflat Hnames. split; [| split].
  - by eapply get_streaming_platforms_names.
  - symmetry. by eapply Forall2_length.
  - intros t names' Hperm. unfold available. simpl.
    by rewrite (Permutation_length Hperm).
Qed.

Lemma platforms_follow_response_witness :
  net (failed 404) search_hit ["Netflix"; "HBO Max"; "Netflix"]
    (trace (fresh [])) (WatchProviders (JInt 348))
  = ok EmptyString (Some (providers_of ["Netflix"; "HBO Max"; "Netflix"]))
  /\ Forall2 (fun e n => getitem e (KStr "provider_name") = Return (JStr n))
       (map provider ["Netflix"; "HBO Max"; "Netflix"]) ["Netflix"; "HBO Max"; "Netflix"]
  /\ get_streaming_platforms (net (failed 404) search_hit ["Netflix"; "HBO Max"; "Netflix"])
       PL (JInt 348) (fresh [])
     = (Return ["Netflix"; "HBO Max"; "Netflix"],
        logged (fresh []) [Get (WatchProviders (JInt 348))])
  /\ length ["Netflix"; "HBO Max"; "Netflix"]
     = length (map provider ["Netflix"; "HBO Max"; "Netflix"])
  /\ (forall t names',
        Permutation ["Netflix"; "HBO Max"; "Netflix"] names' ->
        available {| title := t; platforms := names' |}
        = available {| title := t; platforms := ["Netflix"; "HBO Max"; "Netflix"] |}).
Proof.
  assert (Hnames : Forall2 (fun e n => getitem e (KStr "provider_name") = Return (JStr n))
                     (map provider ["Netflix"; "HBO Max"; "Netflix"])
                     ["Netflix"; "HBO Max"; "Netflix"])
    by (repeat constructor).
  split; [reflexivity |]. split; [exact Hnames |].
  apply (platforms_follow_response
           (net (failed 404) search_hit ["Netflix"; "HBO Max"; "Netflix"])
           PL (JInt 348) (fresh [])
           {| status_code := 200; text := EmptyString;
              json_body := Some (providers_of ["Netflix"; "HBO Max"; "Netflix"]) |}
           (providers_of ["Netflix"; "HBO Max"; "Netflix"])
           (JDict {[ PL := JDict {[ "flatrate" :=
                       JList (map provider ["Netflix"; "HBO Max"; "Netflix"]) ]} ]})
           (JDict {[ "flatrate" := JList (map provider ["Netflix"; "HBO Max"; "Netflix"]) ]})
           (map provider ["Netflix"; "HBO Max"; "Netflix"])).
  - reflexivity.
  - reflexivity.
  - reflexivity.
  - vm_compute; reflexivity.
  - vm_compute; reflexivity.
  - vm_compute; reflexivity.
  - exact Hnames.
Defined.

(** *** The page count *)

(** C7.  For a count of entries that is not negative, the number of pages
    is [floor(n / 28) + 1]: the one [p] with [28 (p - 1) <= n < 28 p].
    Four values of it: 0 entries make 1 page, 28 and 29 make 2, 56 make 3. *)
Theorem page_count_formula (n : Z) :
  0 <= n ->
  num_of_pages_of n = n / 28 + 1
  /\ 28 * (num_of_pages_of n - 1) <= n < 28 * num_of_pages_of n
  /\ num_of_pages_of 0 = 1
  /\ num_of_pages_of 28 = 2
  /\ num_of_pages_of 29 = 2
  /\ num_of_pages_of 56 = 3.
Proof.
  intros Hn. unfold num_of_pages_of. change (7 * 4) with 28.
  pose proof (Z.div_mod n 28 ltac:(lia)) as Hdiv.
  pose proof (Z.mod_pos_bound n 28 ltac:(lia)) as Hmod.
  repeat split; try reflexivity; lia.
Qed.

Lemma page_count_formula_witness :
  0 <= 29
  /\ num_of_pages_of 29 = 29 / 28 + 1
  /\ 28 * (num_of_pages_of 29 - 1) <= 29 < 28 * num_of_pages_of 29
  /\ num_of_pages_of 0 = 1
  /\ num_of_pages_of 28 = 2
  /\ num_of_pages_of 29 = 2
  /\ num_of_pages_of 56 = 3.
Proof. split; [lia |]. apply (page_count_formula 29). lia. Defined.

(** *** The platform counts of the summary *)

(** C6, as stated: the count listed with a platform would be the number
    of titles carrying it.  The watchlist below has one title, whose
    availability response names Netflix twice; the counter over its
    platforms holds 2 for Netflix, and one title carries it. *)
Lemma count_exceeds_titles_carrying :
  exists ms s',
    watchlist (net (ok EmptyString None) search_hit ["Netflix"; "Netflix"])
      parser user PL (fresh []) = (Return ms, s')
    /\ In ("Netflix", 2%nat) (Counter (flat_map platforms ms))
    /\ titles_carrying "Netflix" ms = 1%nat.
Proof.
  eexists _, _. split; [vm_compute; reflexivity |].
  split; [left |]; reflexivity.
Qed.

(** C6, amended.  The platform section of the summary lists the entries of
    [Counter] over the platforms of all titles.  The count listed with a
    name is the number of its occurrences over all titles' platform
    lists, that is the sum over the titles; it is the number of titles
    carrying the name when no title lists a name twice.  The counts do not
    depend on the order of the titles, and the names are listed in the
    order they are first met. *)
Theorem summary_platform_counts (ms : list Movie) :
  (forall p n,
     In (p, n) (Counter (flat_map platforms ms)) ->
     n = list_sum (map (fun m => occurrences p (platforms m)) ms))
  /\ (Forall (fun m => NoDup (platforms m)) ms ->
      forall p n,
        In (p, n) (Counter (flat_map platforms ms)) -> n = titles_carrying p ms)
  /\ (forall ms' p,
        Permutation ms ms' ->
        counter_get (Counter (flat_map platforms ms')) p
        = counter_get (Counter (flat_map platforms ms)) p)
  /\ map fst (Counter (flat_map platforms ms)) = first_seen (flat_map platforms ms).
Proof.
  split; [| split; [| split]].
  - intros p n Hin. rewrite (Counter_entry _ _ _ Hin). apply occurrences_flat_map.
  - intros Hnd p n Hin. rewrite (Counter_entry _ _ _ Hin).
    by apply occurrences_titles_carrying.
  - intros ms' p Hperm. rewrite !counter_get_Counter.
    apply occurrences_Permutation. symmetry. by apply Permutation_flat_map.
  - apply keys_Counter.
Qed.

Lemma summary_platform_counts_witness :
  Forall (fun m => NoDup (platforms m))
    [ {| title := "Alien"; platforms := ["Netflix"; "HBO Max"] |};
      {| title := "Heat"; platforms := ["Netflix"] |} ]
  /\ In ("Netflix", 2%nat)
       (Counter (flat_map platforms
          [ {| title := "Alien"; platforms := ["Netflix"; "HBO Max"] |};
            {| title := "Heat"; platforms := ["Netflix"] |} ]))
  /\ 2%nat = titles_carrying "Netflix"
              [ {| title := "Alien"; platforms := ["Netflix"; "HBO Max"] |};
                {| title := "Heat"; platforms := ["Netflix"] |} ]
  /\ Permutation
       [ {| title := "Alien"; platforms := ["Netflix"; "HBO Max"] |};
         {| title := "Heat"; platforms := ["Netflix"] |} ]
       [ {| title := "Heat"; platforms := ["Netflix"] |};
         {| title := "Alien"; platforms := ["Netflix"; "HBO Max"] |} ]
  /\ counter_get (Counter (flat_map platforms
                    [ {| title := "Heat"; platforms := ["Netflix"] |};
                      {| title := "Alien"; platforms := ["Netflix"; "HBO Max"] |} ]))
       "HBO Max"
     = counter_get (Counter (flat_map platforms
                    [ {| title := "Alien"; platforms := ["Netflix"; "HBO Max"] |};
                      {| title := "Heat"; platforms := ["Netflix"] |} ]))
       "HBO Max".
Proof.
  pose proof (summary_platform_counts
                [ {| title := "Alien"; platforms := ["Netflix"; "HBO Max"] |};
                  {| title := "Heat"; platforms := ["Netflix"] |} ])
    as (_ & Hcarry & Hperm & _).
  assert (Hnd : Forall (fun m => NoDup (platforms m))
            [ {| title := "Alien"; platforms := ["Netflix"; "HBO Max"] |};
              {| title := "Heat"; platforms := ["Netflix"] |} ])
    by (apply (bool_decide_unpack _); vm_compute; exact I).
  split; [exact Hnd |].
  split; [left; reflexivity |].
  split; [apply (Hcarry Hnd); left; reflexivity |].
  split; [apply perm_swap |].
  apply Hperm, perm_swap.
Defined.

(** *** Letterboxd.watchlist and Letterboxd.summary *)

(** C5, as stated: after a failed fetch of page 1 the summary would be
    empty.  Here page 1 answers 404, and the summary is not the empty
    string: it is the header of the platform section. *)
Lemma summary_not_empty_after_first_page_failure :
  exists resp,
    net_404 [] (WatchlistPage user 1) = Responded resp
    /\ status_code resp <> OK
    /\ fst (summary net_404 parser user PL (fresh [])) <> Return EmptyString.
Proof.
  eexists. split; [reflexivity |]. split; [discriminate |].
  vm_compute. discriminate.
Qed.

(** C5, amended.  When the fetch of page 1 yields a status other than 200
    on a new instance, the watchlist is the empty list, the summary has no
    title and no platform line, being exactly the header of its platform
    section, and page 1 is the only page requested. *)
Theorem first_page_failure (world : list event -> request -> reply)
    (html_parser : string -> soup) (username country : string)
    (t : list event) (resp : Response) :
  world t (WatchlistPage username 1) = Responded resp ->
  status_code resp <> OK ->
  exists s1 s2,
    watchlist world html_parser username country (fresh t) = (Return [], s1)
    /\ summary world html_parser username country (fresh t) = (Return summary_header, s2)
    /\ pages_fetched (trace s1) = pages_fetched t ++ [1]
    /\ pages_fetched (trace s2) = pages_fetched t ++ [1].
Proof.
  intros Hnet Hcode.
  pose proof (watchlist_first_page_failed world html_parser username country t resp
                Hnet Hcode) as Hw.
  pose proof (summary_report world html_parser username country (fresh t) [] _
                eq_refl Hw) as Hs.
  eexists _, _. split; [exact Hw |]. split; [exact Hs |].
  simpl. rewrite pages_fetched_app. by split.
Qed.

Lemma first_page_failure_witness :
  net_404 [] (WatchlistPage user 1) = failed 404
  /\ status_code {| status_code := 404; text := EmptyString; json_body := None |} <> OK
  /\ exists s1 s2,
       watchlist net_404 parser user PL (fresh []) = (Return [], s1)
       /\ summary net_404 parser user PL (fresh []) = (Return summary_header, s2)
       /\ pages_fetched (trace s1) = pages_fetched [] ++ [1]
       /\ pages_fetched (trace s2) = pages_fetched [] ++ [1].
Proof.
  split; [reflexivity |]. split; [discriminate |].
  apply (first_page_failure net_404 parser user PL []
           {| status_code := 404; text := EmptyString; json_body := None |}).
  - reflexivity.
  - discriminate.
Defined.

(** C2.  The specification has a failed fetch of a later page downgraded
    and the run completed.  Here page 1 answers 200 and announces one
    film, which TMDB resolves; page 2 answers 404.  [get_page] returns
    [None] for it, the loop hands that [None] to the HTML parser, and both
    the watchlist and the summary end in [TypeError]. *)
Theorem later_page_failure_aborts :
  (exists resp,
     net (failed 404) search_hit ["Netflix"] [] (WatchlistPage user 1) = Responded resp
     /\ status_code resp = OK)
  /\ fst (watchlist (net (failed 404) search_hit ["Netflix"]) parser user PL (fresh []))
     = Raise TypeError
  /\ fst (summary (net (failed 404) search_hit ["Netflix"]) parser user PL (fresh []))
     = Raise TypeError.
Proof.
  split; [eexists; split; reflexivity |].
  split; vm_compute; reflexivity.
Qed.

(** C3.  The specification has the traversal stop fetching after the last
    page.  Here every page answers 200 and page 1 announces one film, so
    the page count is 1; the traversal completes, and it has requested
    page 1 and page 2. *)
Theorem traversal_fetches_past_last_page :
  exists ms s',
    watchlist (net (ok EmptyString None) search_hit ["Netflix"]) parser user PL (fresh [])
    = (Return ms, s')
    /\ num_of_pages_of 1 = 1
    /\ pages_fetched (trace s') = [1; 2].
Proof.
  eexists _, _. split; [vm_compute; reflexivity |]. split; reflexivity.
Qed.

(** C4.  The specification has the watchlist computed at most once per
    instance.  Here page 1 answers 404: the first access returns the
    empty list after requesting page 1, and the second access, on the
    store the first one left, requests page 1 again. *)
Theorem empty_watchlist_fetched_again :
  exists s1 s2,
    watchlist net_404 parser user PL (fresh []) = (Return [], s1)
    /\ pages_fetched (trace s1) = [1]
    /\ watchlist net_404 parser user PL s1 = (Return [], s2)
    /\ pages_fetched (trace s2) = [1; 1].
Proof.
  eexists _, _. split; [vm_compute; reflexivity |].
  split; [reflexivity |]. split; [vm_compute; reflexivity |]. reflexivity.
Qed.

(** ** Further properties of the code *)

(** *** The TMDB client under failure *)

Section TMDBFailures.

Variable world : list event -> request -> reply.
Variable country : string.

(** X1.  A search that answers with a status other than 200 makes [get_movie]
    return the title with no platforms: one request, one logged error,
    the body never read, and no availability request. *)
Theorem get_movie_search_failed (t : string) (s : state) (resp : Response) :
  world (trace s) (SearchMovie t) = Responded resp ->
  status_code resp <> OK ->
  get_movie world country t s
  = (Return {| title := t; platforms := [] |},
     logged s [Get (SearchMovie t); LogError (SearchMovie t) (status_code resp)]).
Proof.
  intros Hnet Hcode. apply get_movie_absent. by apply get_movie_id_not_ok.
Qed.

(** X2.  An availability request that answers with a status other than 200,
    after a search that found an identifier, also makes [get_movie]
    return the title with no platforms, the error logged. *)
Theorem get_movie_providers_failed (t : string) (s s1 : state) (movie_id : json)
    (resp : Response) :
  movie_id <> JNull ->
  get_movie_id world t s = (Return movie_id, s1) ->
  world (trace s1) (WatchProviders movie_id) = Responded resp ->
  status_code resp <> OK ->
  get_movie world country t s
  = (Return {| title := t; platforms := [] |},
     logged s1 [Get (WatchProviders movie_id);
                LogError (WatchProviders movie_id) (status_code resp)]).
Proof.
  intros Hid H1 Hnet Hcode.
  apply (get_movie_found world country t s movie_id s1 (Return []) _ Hid H1).
  by apply get_streaming_platforms_not_ok.
Qed.

(** X3.  The search takes the first result and looks at no other: whatever
    follows it in the list, the [id] of the first is returned. *)
Theorem get_movie_id_takes_first_result (t : string) (s : state) (resp : Response)
    (body first : gmap string json) (others : list json) (movie_id : json) :
  world (trace s) (SearchMovie t) = Responded resp ->
  status_code resp = OK ->
  json_body resp = Some (JDict body) ->
  body !! "results" = Some (JList (JDict first :: others)) ->
  first !! "id" = Some movie_id ->
  get_movie_id world t s = (Return movie_id, logged s [Get (SearchMovie t)]).
Proof.
  intros Hnet Hcode Hbody Hres Hid.
  apply (get_movie_id_first world t s resp (JDict body)
           (JList (JDict first :: others)) (JDict first) movie_id Hnet Hcode Hbody).
  - simpl. by rewrite Hres.
  - reflexivity.
  - simpl. by rewrite Hid.
Qed.

(** X7.  Only [KeyError] is absorbed by [get_streaming_platforms].  A 200 whose
    body is not JSON ends it in [JSONDecodeError]. *)
Theorem get_streaming_platforms_undecodable (movie_id : json) (s : state)
    (resp : Response) :
  world (trace s) (WatchProviders movie_id) = Responded resp ->
  status_code resp = OK ->
  json_body resp = None ->
  get_streaming_platforms world country movie_id s
  = (Raise JSONDecodeError, logged s [Get (WatchProviders movie_id)]).
Proof.
  intros Hnet Hcode Hbody. unfold get_streaming_platforms.
  rewrite (bind_return _ _ _ _ _ (requests_get_responded _ _ _ _ Hnet)).
  rewrite Hcode. simpl. unfold try_except, json_of. by rewrite Hbody.
Qed.

(** X6.  A [flatrate] value that cannot be iterated ([null], a number, a
    boolean) ends [get_streaming_platforms] in [TypeError]. *)
Theorem get_streaming_platforms_not_iterable (movie_id : json) (s : state)
    (resp : Response) (body results by_country flatrate : json) :
  world (trace s) (WatchProviders movie_id) = Responded resp ->
  status_code resp = OK ->
  json_body resp = Some body ->
  getitem body (KStr "results") = Return results ->
  getitem results (KStr country) = Return by_country ->
  getitem by_country (KStr "flatrate") = Return flatrate ->
  iterate flatrate = Raise TypeError ->
  get_streaming_platforms world country movie_id s
  = (Raise TypeError, logged s [Get (WatchProviders movie_id)]).
Proof.
  intros Hnet Hcode Hbody Hres Hcountry Hflat Hiter. unfold get_streaming_platforms.
  rewrite (bind_return _ _ _ _ _ (requests_get_responded _ _ _ _ Hnet)).
  rewrite Hcode. simpl. unfold try_except, json_of. rewrite Hbody.
  unfold bind at 1, ret at 1. unfold bind at 1, lift at 1. rewrite Hres.
  unfold bind at 1, lift at 1. rewrite Hcountry.
  unfold bind at 1, lift at 1. rewrite Hflat.
  unfold bind at 1, lift at 1. by rewrite Hiter.
Qed.

(** X4.  A key missing at any level of the body ([results], the country,
    [flatrate]) is answered by the empty list, and nothing is logged. *)
Theorem get_streaming_platforms_missing_key (movie_id : json) (s : state)
    (resp : Response) (body : json) :
  world (trace s) (WatchProviders movie_id) = Responded resp ->
  status_code resp = OK ->
  json_body resp = Some body ->
  getitem body (KStr "results") = Raise KeyError
  \/ (exists results,
        getitem body (KStr "results") = Return results
        /\ (getitem results (KStr country) = Raise KeyError
            \/ exists by_country,
                 getitem results (KStr country) = Return by_country
                 /\ getitem by_country (KStr "flatrate") = Raise KeyError)) ->
  get_streaming_platforms world country movie_id s
  = (Return [], logged s [Get (WatchProviders movie_id)]).
Proof.
  intros Hnet Hcode Hbody Hmiss. unfold get_streaming_platforms.
  rewrite (bind_return _ _ _ _ _ (requests_get_responded _ _ _ _ Hnet)).
  rewrite Hcode. simpl. unfold try_except, json_of. rewrite Hbody.
  unfold bind at 1, ret at 1. unfold bind at 1, lift at 1.
  destruct Hmiss as [Hres | (results & Hres & Hmiss)]; rewrite Hres; [done |].
  unfold bind at 1, lift at 1.
  destruct Hmiss as [Hc | (by_country & Hc & Hflat)]; rewrite Hc; [done |].
  unfold bind at 1, lift at 1. by rewrite Hflat.
Qed.



End TMDBFailures.

(** *** Letterboxd.get_page *)

(** X9.  [get_page] sends one request, for the page asked.  A 200 gives the
    text of the response and logs nothing; any other status gives [None]
    and logs the error. *)
Theorem get_page_result (world : list event -> request -> reply)
    (username : string) (page : Z) (s : state) (resp : Response) :
  world (trace s) (WatchlistPage username page) = Responded resp ->
  get_page world username page s
  = if status_code resp =? OK
    then (Return (Some (text resp)), logged s [Get (WatchlistPage username page)])
    else (Return None,
          logged s [Get (WatchlistPage username page);
                    LogError (WatchlistPage username page) (status_code resp)]).
Proof.
  intros Hnet. destruct (status_code resp =? OK) eqn:Hcode.
  - apply Z.eqb_eq in Hcode. by apply get_page_ok.
  - apply Z.eqb_neq in Hcode. by apply get_page_not_ok.
Qed.

(** *** What the traversal leaves of the instance *)

Section Frames.

Variable world : list event -> request -> reply.
Variable html_parser : string -> soup.
Variable username : string.
Variable country : string.

Lemma keeps_attributes_bind {A B} (m : M A) (k : A -> M B) :
  keeps_attributes m -> (forall a, keeps_attributes (k a)) -> keeps_attributes (bind m k).
Proof.
  intros Hm Hk s o s'. unfold bind.
  destruct (m s) as [[a | e |] s1] eqn:H1; intros H.
  - destruct (Hk _ _ _ _ H) as [-> ->]. eapply Hm, H1.
  - inversion H; subst. eapply Hm, H1.
  - inversion H; subst. eapply Hm, H1.
Qed.

Lemma keeps_attributes_logged {A} (m : M A) :
  (forall s o s', m s = (o, s') -> exists es, s' = logged s es) -> keeps_attributes m.
Proof. intros Hm s o s' H. destruct (Hm _ _ _ H) as (es & ->). done. Qed.

Lemma keeps_attributes_get_movie t : keeps_attributes (get_movie world country t).
Proof.
  apply keeps_attributes_logged. intros s o s' H.
  destruct (get_movie_trace _ _ _ _ _ _ H) as (es & -> & _). eauto.
Qed.

Lemma keeps_attributes_get_page page : keeps_attributes (get_page world username page).
Proof.
  apply keeps_attributes_logged. intros s o s' H.
  destruct (get_page_trace _ _ _ _ _ _ H) as (es & -> & _). eauto.
Qed.

Lemma keeps_summary_bind {A B} (m : M A) (k : A -> M B) :
  keeps_summary m -> (forall a, keeps_summary (k a)) -> keeps_summary (bind m k).
Proof.
  intros Hm Hk s o s'. unfold bind.
  destruct (m s) as [[a | e |] s1] eqn:H1; intros H.
  - rewrite (Hk _ _ _ _ H). eapply Hm, H1.
  - inversion H; subst. eapply Hm, H1.
  - inversion H; subst. eapply Hm, H1.
Qed.

Lemma keeps_summary_attributes {A} (m : M A) : keeps_attributes m -> keeps_summary m.
Proof. intros Hm s o s' H. by destruct (Hm _ _ _ H). Qed.

Lemma keeps_summary_silent {A} (m : M A) : silent m -> keeps_summary m.
Proof. intros Hm s o s' H. specialize (Hm s). rewrite H in Hm. simpl in Hm. by subst. Qed.

Lemma keeps_summary_for_each {A} (l : list A) (body : A -> M unit) :
  (forall x, keeps_summary (body x)) -> keeps_summary (for_each l body).
Proof.
  intros Hb. induction l as [| x rest IH]; simpl.
  - apply keeps_summary_silent, silent_ret.
  - apply keeps_summary_bind; [apply Hb | intros _; apply IH].
Qed.

Lemma keeps_summary_watchlist_append m : keeps_summary (watchlist_append m).
Proof.
  intros s o s'. unfold watchlist_append.
  destruct (_watchlist s); intros H; by inversion H.
Qed.

Lemma keeps_summary_resolve_poster el : keeps_summary (resolve_poster world country el).
Proof.
  unfold resolve_poster.
  apply keeps_summary_bind; [apply keeps_summary_silent, silent_lift |]. intros t.
  apply keeps_summary_bind;
    [apply keeps_summary_attributes, keeps_attributes_get_movie |]. intros m.
  apply keeps_summary_watchlist_append.
Qed.

Lemma keeps_summary_BeautifulSoup html : keeps_summary (BeautifulSoup html_parser html).
Proof.
  apply keeps_summary_silent. unfold BeautifulSoup.
  destruct html; [apply silent_ret | apply silent_raise].
Qed.

Lemma keeps_summary_while_pages fuel : forall num_of_pages current_page page,
  keeps_summary
    (while_pages world html_parser username country fuel num_of_pages current_page page).
Proof.
  induction fuel as [| fuel IH]; intros np cp page; simpl.
  - apply keeps_summary_silent, silent_lift.
  - destruct (cp <=? np); [| apply keeps_summary_silent, silent_ret].
    apply keeps_summary_bind;
      [apply keeps_summary_for_each, keeps_summary_resolve_poster |]. intros _.
    apply keeps_summary_bind;
      [apply keeps_summary_attributes, keeps_attributes_get_page |]. intros html.
    apply keeps_summary_bind; [apply keeps_summary_BeautifulSoup |]. intros page'.
    apply IH.
Qed.

Lemma keeps_summary_watchlist :
  keeps_summary (watchlist world html_parser username country).
Proof.
  unfold watchlist.
  apply keeps_summary_bind; [by intros s o s' H; inversion H |]. intros cached.
  assert (Hcompute : keeps_summary
    (set_watchlist [] ;;;
     watchlist_html <- get_page world username 1 ;;
     match watchlist_html with
     | None => ret []
     | Some _ =>
         page <- BeautifulSoup html_parser watchlist_html ;;
         heading <- lift (match section_heading page with
                          | Some t => Return t
                          | None => Raise AttributeError
                          end) ;;
         token <- lift (list_getitem (split heading) (-2)) ;;
         movies_count <- lift (int token) ;;
         (while_pages world html_parser username country
            (S (Z.to_nat (num_of_pages_of movies_count)))
            (num_of_pages_of movies_count) 1 page ;;;
          result <- getattr_watchlist ;;
          match result with
          | Some l => ret l
          | None => raise AttributeError
          end)
     end)).
  { apply keeps_summary_bind; [by intros s o s' H; inversion H |]. intros _.
    apply keeps_summary_bind;
      [apply keeps_summary_attributes, keeps_attributes_get_page |]. intros html.
    destruct html as [html |]; [| apply keeps_summary_silent, silent_ret].
    apply keeps_summary_bind; [apply keeps_summary_BeautifulSoup |]. intros page.
    apply keeps_summary_bind; [apply keeps_summary_silent, silent_lift |]. intros heading.
    apply keeps_summary_bind; [apply keeps_summary_silent, silent_lift |]. intros token.
    apply keeps_summary_bind; [apply keeps_summary_silent, silent_lift |]. intros n.
    apply keeps_summary_bind; [apply keeps_summary_while_pages |]. intros _.
    apply keeps_summary_bind; [by intros s o s' H; inversion H |]. intros result.
    apply keeps_summary_silent. destruct result; [apply silent_ret | apply silent_raise]. }
  destruct cached as [[| m l] |]; try exact Hcompute.
  apply keeps_summary_silent, silent_ret.
Qed.

End Frames.

(** *** The traversal of the watchlist *)

Section Traversal.

Variable world : list event -> request -> reply.
Variable html_parser : string -> soup.
Variable username : string.
Variable country : string.

#[local] Arguments while_pages : simpl never.

Lemma get_movie_title t s m s' :
  get_movie world country t s = (Return m, s') -> title m = t.
Proof.
  unfold get_movie. intros H.
  apply bind_inv in H as (movie_id & s1 & _ & H).
  destruct movie_id; try (apply bind_inv in H as (ps & s2 & _ & H));
    by inversion H.
Qed.

(** On a new instance whose first page answers 200, [watchlist] is the
    loop over the pages, started on the parsed first page with the count
    read off its heading. *)
Lemma watchlist_run t resp :
  world t (WatchlistPage username 1) = Responded resp ->
  status_code resp = OK ->
  watchlist world html_parser username country (fresh t)
  = let s0 := logged (with_watchlist (fresh t) []) [Get (WatchlistPage username 1)] in
    let page := html_parser (text resp) in
    match movies_count_of page with
    | Return movies_count =>
        (while_pages world html_parser username country
           (S (Z.to_nat (num_of_pages_of movies_count)))
           (num_of_pages_of movies_count) 1 page ;;;
         result <- getattr_watchlist ;;
         match result with
         | Some l => ret l
         | None => raise AttributeError
         end) s0
    | Raise e => (Raise e, s0)
    | Unmodelled => (Unmodelled, s0)
    end.
Proof.
  intros Hnet Hcode. unfold watchlist, bind at 1. simpl. unfold bind at 1. simpl.
  rewrite (bind_return _ _ _ _ _
             (get_page_ok world username 1 (with_watchlist (fresh t) []) resp Hnet Hcode)).
  unfold bind at 1. simpl. unfold movies_count_of.
  unfold bind at 1, lift at 1.
  destruct (section_heading (html_parser (text resp))) as [heading |]; [| done].
  unfold bind at 1, lift at 1.
  destruct (list_getitem (split heading) (-2)) as [token | e |]; [| done | done].
  unfold bind at 1, lift at 1.
  by destruct (int token) as [n | e |].
Qed.

Lemma resolve_poster_appends el s s' l0 :
  resolve_poster world country el s = (Return tt, s') ->
  _watchlist s = Some l0 ->
  exists m, poster_title el = Return (title m) /\ _watchlist s' = Some (l0 ++ [m]).
Proof.
  unfold resolve_poster. intros H Hw.
  apply bind_inv in H as (t & s1 & Ht & H).
  apply bind_inv in H as (m & s2 & Hm & H).
  assert (Hel : poster_title el = Return t /\ s1 = s).
  { unfold lift in Ht. unfold poster_title.
    destruct (find_img el) as [img |]; [| by inversion Ht].
    destruct (alt img); by inversion Ht. }
  destruct Hel as [Hel ->].
  destruct (keeps_attributes_get_movie world country t _ _ _ Hm) as [Hw2 _].
  exists m. rewrite (get_movie_title _ _ _ _ Hm). split; [done |].
  unfold watchlist_append in H. rewrite Hw2, Hw in H. by inversion H.
Qed.

Lemma for_each_resolve_appends posters : forall s s' l0,
  for_each posters (resolve_poster world country) s = (Return tt, s') ->
  _watchlist s = Some l0 ->
  exists ms,
    _watchlist s' = Some (l0 ++ ms)
    /\ map title ms = page_titles {| section_heading := None; poster_containers := posters |}.
Proof.
  unfold page_titles. simpl.
  induction posters as [| el rest IH]; intros s s' l0 H Hw; simpl in *.
  - inversion H; subst. exists []. by rewrite app_nil_r.
  - apply bind_inv in H as ([] & s1 & Hel & H).
    destruct (resolve_poster_appends _ _ _ _ Hel Hw) as (m & Ht & Hw1).
    destruct (IH _ _ _ H Hw1) as (ms & Hw' & Hms).
    exists (m :: ms). rewrite Hw', <- app_assoc. split; [done |].
    rewrite Ht. simpl. by rewrite Hms.
Qed.

Section StableListing.

(** A listing whose answer for a page does not depend on what was
    requested before. *)
Variable listing : Z -> Response.
Hypothesis world_listing :
  forall h p, world h (WatchlistPage username p) = Responded (listing p).

Lemma while_pages_titles fuel : forall num_of_pages current_page s s' l0,
  while_pages world html_parser username country fuel num_of_pages current_page
    (html_parser (text (listing current_page))) s = (Return tt, s') ->
  _watchlist s = Some l0 ->
  exists ms,
    _watchlist s' = Some (l0 ++ ms)
    /\ map title ms
       = flat_map (fun p => page_titles (html_parser (text (listing p))))
           (seqZ current_page (num_of_pages + 1 - current_page)).
Proof.
  induction fuel as [| fuel IH]; intros np cp s s' l0; [done |].
  unfold while_pages; fold while_pages.
  destruct (cp <=? np) eqn:Hguard.
  - apply Z.leb_le in Hguard. intros H Hw.
    apply bind_inv in H as ([] & s1 & Hfor & H).
    apply bind_inv in H as (html & s2 & Hget & H).
    apply bind_inv in H as (page' & s3 & Hsoup & H).
    destruct (for_each_resolve_appends _ _ _ _ Hfor Hw) as (ms1 & Hw1 & Hms1).
    destruct (keeps_attributes_get_page world username _ _ _ _ Hget) as [Hw2 _].
    rewrite (get_page_result world username (cp + 1) s1 _ (world_listing _ _)) in Hget.
    destruct (status_code (listing (cp + 1)) =? OK);
      inversion Hget; subst; [| by inversion Hsoup].
    inversion Hsoup; subst.
    destruct (IH np (cp + 1) _ _ (l0 ++ ms1) H) as (ms2 & Hw' & Hms2).
    { by rewrite Hw2, Hw1. }
    exists (ms1 ++ ms2). rewrite Hw', <- app_assoc. split; [done |].
    rewrite map_app, Hms1, Hms2.
    rewrite (seqZ_cons cp); [| lia]. simpl.
    unfold page_titles at 1 3. simpl. f_equal. f_equal. f_equal; lia.
  - apply Z.leb_gt in Hguard. intros H Hw. inversion H; subst.
    exists []. rewrite app_nil_r. split; [done |].
    by rewrite seqZ_nil; [| lia].
Qed.

(** X10.  The watchlist in page order.  When no answer of the listing depends
    on earlier requests, the heading of page 1 is plain and gives a modest
    count, and the traversal completes, the titles of the list returned
    are the titles of the posters of pages 1 to the page count, page after
    page and within a page in the order of the posters: one [Movie] per
    poster, none dropped, none added. *)
Theorem watchlist_titles_in_page_order (t : list event) (movies_count : Z)
    (l : list Movie) (s' : state) :
  status_code (listing 1) = OK ->
  plain_heading (html_parser (text (listing 1))) ->
  movies_count_of (html_parser (text (listing 1))) = Return movies_count ->
  modest_count movies_count ->
  watchlist world html_parser username country (fresh t) = (Return l, s') ->
  map title l
  = flat_map (fun p => page_titles (html_parser (text (listing p))))
      (seqZ 1 (num_of_pages_of movies_count)).
Proof.
  intros Hcode _ Hcount _ H.
  rewrite (watchlist_run t _ (world_listing _ _) Hcode) in H. simpl in H.
  rewrite Hcount in H.
  apply bind_inv in H as ([] & s1 & Hloop & H).
  apply bind_inv in H as (result & s2 & Hattr & H). inversion Hattr; subst.
  destruct (while_pages_titles _ _ _ _ _ [] Hloop eq_refl) as (ms & Hw & Hms).
  rewrite Hw in H. inversion H; subst. simpl. rewrite Hms.
  by replace (num_of_pages_of movies_count + 1 - 1) with (num_of_pages_of movies_count) by lia.
Qed.

End StableListing.

(** X11.  A heading that cannot be read ends the traversal.  With no heading on
    the first page [watchlist] raises [AttributeError]; with a plain
    heading of fewer than two words [IndexError], with a plain heading
    whose word before the last is no number [ValueError]: after the one
    request for page 1, the empty list already stored on the instance. *)
Theorem watchlist_unreadable_heading (t : list event) (resp : Response) (e : exn) :
  world t (WatchlistPage username 1) = Responded resp ->
  status_code resp = OK ->
  plain_heading (html_parser (text resp)) ->
  movies_count_of (html_parser (text resp)) = Raise e ->
  watchlist world html_parser username country (fresh t)
  = (Raise e,
     logged (with_watchlist (fresh t) []) [Get (WatchlistPage username 1)]).
Proof.
  intros Hnet Hcode _ Hcount. rewrite (watchlist_run t resp Hnet Hcode). simpl.
  by rewrite Hcount.
Qed.

(** X12.  A poster that has no image, or whose image has no [alt], ends the
    traversal: [TypeError] for the missing image, [KeyError] for the
    missing attribute.  When page 1 answers 200 with a plain heading that
    gives a modest count, and it is the first poster of that page,
    nothing has been asked of TMDB. *)
Theorem watchlist_unreadable_poster (t : list event) (resp : Response)
    (movies_count : Z) (el : poster_container) (rest : list poster_container) (e : exn) :
  world t (WatchlistPage username 1) = Responded resp ->
  status_code resp = OK ->
  plain_heading (html_parser (text resp)) ->
  movies_count_of (html_parser (text resp)) = Return movies_count ->
  modest_count movies_count ->
  poster_containers (html_parser (text resp)) = el :: rest ->
  poster_title el = Raise e ->
  watchlist world html_parser username country (fresh t)
  = (Raise e,
     logged (with_watchlist (fresh t) []) [Get (WatchlistPage username 1)]).
Proof.
  intros Hnet Hcode _ Hcount [Hpos _] Hposters Hel.
  rewrite (watchlist_run t resp Hnet Hcode). simpl. rewrite Hcount.
  assert (Hnp : 1 <= num_of_pages_of movies_count).
  { unfold num_of_pages_of. pose proof (Z.div_pos movies_count (7 * 4)). lia. }
  apply bind_raise. unfold while_pages.
  apply Z.leb_le in Hnp. rewrite Hnp. rewrite Hposters.
  apply bind_raise. simpl. apply bind_raise. unfold resolve_poster.
  apply bind_raise. unfold lift. unfold poster_title in Hel.
  destruct (find_img el) as [img |]; [| by inversion Hel].
  destruct (alt img); by inversion Hel.
Qed.

(** X13.  A traversal that completes, on a page 1 that answered 200 with a
    plain heading giving a modest count, has requested the pages 1 to the
    page count plus one, in this order and each once. *)
Theorem watchlist_requests_pages (t : list event) (resp : Response)
    (movies_count : Z) (l : list Movie) (s' : state) :
  world t (WatchlistPage username 1) = Responded resp ->
  status_code resp = OK ->
  plain_heading (html_parser (text resp)) ->
  movies_count_of (html_parser (text resp)) = Return movies_count ->
  modest_count movies_count ->
  watchlist world html_parser username country (fresh t) = (Return l, s') ->
  pages_fetched (trace s')
  = pages_fetched t ++ seqZ 1 (num_of_pages_of movies_count + 1).
Proof.
  intros Hnet Hcode _ Hcount [Hpos _] H. unfold movies_count_of in Hcount.
  destruct (section_heading (html_parser (text resp))) as [heading |] eqn:Hhead;
    [| done].
  destruct (list_getitem (split heading) (-2)) as [token | |] eqn:Htok; try done.
  by eapply watchlist_pages.
Qed.

End Traversal.

(** *** The summary *)

Section Summary.

Variable world : list event -> request -> reply.
Variable html_parser : string -> soup.
Variable username : string.
Variable country : string.

(** X16.  The text of the summary.  On an instance without a summary, whatever
    list [watchlist] returns, [summary] returns the report of that list:
    one entry per title in the order of the list, each closed by a line
    of fifty stars, then the header of the platform section, then one line
    per platform.  It stores that text and sends nothing of its own. *)
Theorem summary_is_report (s s1 : state) (ms : list Movie) :
  _summary s = None ->
  watchlist world html_parser username country s = (Return ms, s1) ->
  summary world html_parser username country s
  = (Return (report ms), with_summary s1 (report ms)).
Proof. apply summary_report. Qed.

(** X17.  The summary is computed once: after an access that returned, the next
    access returns the same text and leaves the store, and so the trace,
    as it is. *)
Theorem summary_computed_once (s s' : state) (t : string) :
  _summary s = None ->
  summary world html_parser username country s = (Return t, s') ->
  summary world html_parser username country s' = (Return t, s').
Proof. apply summary_cached. Qed.

(** X15.  A watchlist that is not empty is computed once: the next access
    returns the same list and leaves the store, and so the trace, as it
    is. *)
Theorem watchlist_computed_once_when_not_empty (s s' : state) (m : Movie)
    (l : list Movie) :
  watchlist world html_parser username country s = (Return (m :: l), s') ->
  watchlist world html_parser username country s' = (Return (m :: l), s').
Proof. apply watchlist_cached. Qed.

(** X18.  Reading the watchlist first and the summary after it costs one
    traversal: when the watchlist returned is not empty, the summary that
    follows is the report of that very list and sends no request. *)
Theorem summary_after_watchlist (s s1 : state) (m : Movie) (l : list Movie) :
  _summary s = None ->
  watchlist world html_parser username country s = (Return (m :: l), s1) ->
  summary world html_parser username country s1
  = (Return (report (m :: l)), with_summary s1 (report (m :: l))).
Proof.
  intros Hs Hw. apply summary_report.
  - rewrite (keeps_summary_watchlist world html_parser username country _ _ _ Hw). exact Hs.
  - by eapply watchlist_cached.
Qed.

End Summary.

(** *** The platform section *)

Lemma counter_incr_sum k (c : list (string * nat)) :
  list_sum (map snd (counter_incr k c)) = S (list_sum (map snd c)).
Proof.
  induction c as [| [k' n] rest IH]; simpl; [done |].
  destruct (String.eqb k k'); simpl; [done |]. rewrite IH. lia.
Qed.

Lemma counter_incr_positive k (c : list (string * nat)) :
  Forall (fun pc => (0 < snd pc)%nat) c ->
  Forall (fun pc => (0 < snd pc)%nat) (counter_incr k c).
Proof.
  induction 1 as [| [k' n] rest Hn Hrest IH]; simpl.
  - repeat constructor.
  - destruct (String.eqb k k'); constructor; simpl in *; try done. lia.
Qed.

Lemma counter_fold_sum (l : list string) : forall c,
  list_sum (map snd (fold_left (fun c k => counter_incr k c) l c))
  = (list_sum (map snd c) + length l)%nat.
Proof.
  induction l as [| x rest IH]; intros c; simpl; [lia |].
  rewrite IH, counter_incr_sum. lia.
Qed.

Lemma counter_fold_positive (l : list string) : forall c,
  Forall (fun pc => (0 < snd pc)%nat) c ->
  Forall (fun pc => (0 < snd pc)%nat) (fold_left (fun c k => counter_incr k c) l c).
Proof.
  induction l as [| x rest IH]; intros c Hc; simpl; [done |].
  by apply IH, counter_incr_positive.
Qed.

(** X19.  The platform section accounts for every platform entry once.  The
    names listed are distinct, each with a count of at least 1, and the
    counts add up to the number of platform entries of all titles. *)
Theorem platform_counts_add_up (ms : list Movie) :
  NoDup (map fst (Counter (flat_map platforms ms)))
  /\ Forall (fun pc => (0 < snd pc)%nat) (Counter (flat_map platforms ms))
  /\ list_sum (map snd (Counter (flat_map platforms ms)))
     = list_sum (map (fun m => length (platforms m)) ms).
Proof.
  split; [| split].
  - rewrite keys_Counter. apply NoDup_first_seen.
  - apply counter_fold_positive. constructor.
  - unfold Counter. rewrite counter_fold_sum. simpl.
    induction ms as [| m rest IH]; simpl; [done |]. by rewrite length_app, IH.
Qed.

(** *** Movie.__str__ *)

Lemma ltb_leb x y : String.ltb x y = true -> String.le x y.
Proof.
  unfold String.le, String.ltb, String.leb. by destruct (String.compare x y).
Qed.

Lemma not_ltb_leb x y : String.ltb x y = false -> String.le y x.
Proof.
  unfold String.le, String.ltb, String.leb. rewrite (String.compare_antisym x y).
  by destruct (String.compare y x).
Qed.

Lemma insert_sorted_Permutation x l : Permutation (insert_sorted x l) (x :: l).
Proof.
  induction l as [| y rest IH]; simpl; [done |].
  destruct (String.ltb x y); [done |].
  rewrite IH. apply perm_swap.
Qed.

Lemma insert_sorted_StronglySorted x l :
  StronglySorted String.le l -> StronglySorted String.le (insert_sorted x l).
Proof.
  induction 1 as [| y rest Hrest IH Hy]; simpl.
  - repeat constructor.
  - destruct (String.ltb x y) eqn:Hxy.
    + apply ltb_leb in Hxy. constructor; [by constructor |].
      constructor; [done |].
      eapply Forall_impl; [exact Hy |]. intros z Hz. by etrans.
    + apply not_ltb_leb in Hxy. constructor; [exact IH |].
      rewrite insert_sorted_Permutation. by constructor.
Qed.

Lemma sorted_fold_Permutation l : forall acc,
  Permutation (fold_left (fun acc x => insert_sorted x acc) l acc) (l ++ acc).
Proof.
  induction l as [| x rest IH]; intros acc; simpl; [done |].
  rewrite IH, insert_sorted_Permutation. by rewrite Permutation_middle.
Qed.

Lemma sorted_fold_StronglySorted l : forall acc,
  StronglySorted String.le acc ->
  StronglySorted String.le (fold_left (fun acc x => insert_sorted x acc) l acc).
Proof.
  induction l as [| x rest IH]; intros acc Hacc; simpl; [done |].
  by apply IH, insert_sorted_StronglySorted.
Qed.

Lemma sorted_Permutation l : Permutation (sorted l) l.
Proof. unfold sorted. rewrite sorted_fold_Permutation. by rewrite app_nil_r. Qed.

Lemma sorted_StronglySorted l : StronglySorted String.le (sorted l).
Proof. apply sorted_fold_StronglySorted. constructor. Qed.

(** X20.  The rendering of a title does not depend on the order in which its
    platforms were found: two titles of the same name whose platform lists
    are permutations of each other render to the same text. *)
Theorem Movie_str_order_free (t : string) (ps ps' : list string) :
  Permutation ps ps' ->
  Movie_str {| title := t; platforms := ps |}
  = Movie_str {| title := t; platforms := ps' |}.
Proof.
  intros Hperm. unfold Movie_str, available. simpl.
  rewrite (Permutation_length Hperm).
  assert (Hsorted : sorted ps = sorted ps'); [| by rewrite Hsorted].
  apply (StronglySorted_unique String.le); try apply sorted_StronglySorted.
  by rewrite !sorted_Permutation.
Qed.

(** *** The count in the heading *)

Lemma split_from_word w : forall acc rest,
  no_space w = true ->
  split_from (w +:+ rest) acc = split_from rest (acc +:+ w).
Proof.
  induction w as [| c w IH]; intros acc rest Hw; simpl in *.
  - by rewrite append_nil_r.
  - apply andb_true_iff in Hw as [Hc Hw]. apply negb_true_iff in Hc.
    change (String c w +:+ rest) with (String c (w +:+ rest)). simpl. rewrite Hc.
    rewrite IH by done. by rewrite append_assoc.
Qed.

Lemma split_from_space rest word :
  split_from (String " "%char rest) word
  = if nonempty word then word :: split_from rest EmptyString
    else split_from rest EmptyString.
Proof. reflexivity. Qed.

Lemma split_from_end word :
  split_from EmptyString word = if nonempty word then [word] else [].
Proof. reflexivity. Qed.

Lemma split_join (ws : list string) :
  Forall (fun w => is_word w = true) ws -> split (join " " ws) = ws.
Proof.
  unfold split. induction 1 as [| w rest Hw Hrest IH]; [done |].
  apply andb_true_iff in Hw as [Hne Hns].
  destruct rest as [| w2 rest].
  - change (join " " [w]) with w. rewrite <- (append_nil_r w) at 1.
    rewrite split_from_word by done. change ("" +:+ w) with w.
    by rewrite split_from_end, Hne.
  - change (join " " (w :: w2 :: rest)) with (w +:+ " " +:+ join " " (w2 :: rest)).
    rewrite split_from_word by done. change ("" +:+ w) with w.
    change (" " +:+ join " " (w2 :: rest)) with (String " "%char (join " " (w2 :: rest))).
    by rewrite split_from_space, Hne, IH.
Qed.

(** X21.  The count of a well-formed heading.  When the heading is made of
    ASCII words separated by single spaces, and the word before the last
    has at most 4300 characters, the count is read off that word, however
    many words come before it and whatever they are. *)
Theorem movies_count_of_heading (before : list string) (count last : string)
    (posters : list poster_container) :
  Forall (fun w => is_word w && ascii_text w = true) (before ++ [count; last]) ->
  (String.length count <= 4300)%nat ->
  movies_count_of {| section_heading := Some (join " " (before ++ [count; last]));
                     poster_containers := posters |}
  = int count.
Proof.
  intros Hascii _.
  assert (Hwords : Forall (fun w => is_word w = true) (before ++ [count; last])).
  { eapply Forall_impl; [exact Hascii |]. intros w Hw.
    by apply andb_true_iff in Hw as [Hw _]. }
  unfold movies_count_of. simpl. rewrite (split_join _ Hwords).
  unfold list_getitem. rewrite length_app. simpl length.
  replace (Z.of_nat (length before + 2) + -2) with (Z.of_nat (length before)) by lia.
  simpl. 
  assert (H1 : (0 <=? Z.of_nat (length before)) = true) by (apply Z.leb_le; lia).
  assert (H2 : (Z.of_nat (length before) <? Z.of_nat (length before + 2)) = true)
    by (apply Z.ltb_lt; lia).
  rewrite H1, H2, Nat2Z.id. simpl.
  rewrite nth_error_app2 by lia. by rewrite Nat.sub_diag.
Qed.

(** *** An aborted traversal *)

(** X14.  A later page that fails, and what it leaves.  When page 1 answered
    200 with a plain heading giving a modest count (so not negative and
    far below what the progress bar refuses), its posters were all
    resolved, and page 2
    answers with a status other than 200, [watchlist] raises [TypeError].
    The titles of page 1 stay stored on the instance: if there are any,
    the next access returns them as the watchlist, without a request and
    without an error. *)
Theorem watchlist_aborted_then_partial (world : list event -> request -> reply)
    (html_parser : string -> soup) (username country : string) (t : list event)
    (resp resp2 : Response) (movies_count : Z) (s1 : state) :
  world t (WatchlistPage username 1) = Responded resp ->
  status_code resp = OK ->
  plain_heading (html_parser (text resp)) ->
  movies_count_of (html_parser (text resp)) = Return movies_count ->
  modest_count movies_count ->
  for_each (poster_containers (html_parser (text resp))) (resolve_poster world country)
    (logged (with_watchlist (fresh t) []) [Get (WatchlistPage username 1)])
  = (Return tt, s1) ->
  world (trace s1) (WatchlistPage username 2) = Responded resp2 ->
  status_code resp2 <> OK ->
  let s2 := logged s1 [Get (WatchlistPage username 2);
                       LogError (WatchlistPage username 2) (status_code resp2)] in
  watchlist world html_parser username country (fresh t) = (Raise TypeError, s2)
  /\ (forall m l,
        _watchlist s1 = Some (m :: l) ->
        watchlist world html_parser username country s2 = (Return (m :: l), s2)).
Proof.
  intros Hnet Hcode _ Hcount [Hpos _] Hfor Hnet2 Hcode2 s2. split.
  - rewrite (watchlist_run world html_parser username country t resp Hnet Hcode).
    cbv zeta. rewrite Hcount. apply bind_raise.
    assert (Hnp : 1 <= num_of_pages_of movies_count).
    { unfold num_of_pages_of. pose proof (Z.div_pos movies_count (7 * 4)). lia. }
    exact (while_pages_failed_fetch world html_parser username country _ _ 1 _ _ s1 resp2
             Hnp Hfor Hnet2 Hcode2).
  - intros m l Hw. unfold watchlist, bind at 1, getattr_watchlist.
    change (_watchlist s2) with (_watchlist s1). by rewrite Hw.
Qed.

(** *** The requests of one title *)

(** X8.  Whatever the outcome, [get_movie] starts with the search for the
    title it was given; after it, it requests no listing page and sends at
    most one availability request. *)
Theorem get_movie_requests (world : list event -> request -> reply)
    (country t : string) (s : state) :
  exists es,
    trace (snd (get_movie world country t s)) = trace s ++ Get (SearchMovie t) :: es
    /\ pages_fetched es = []
    /\ (availability_calls es <= 1)%nat.
Proof.
  destruct (get_movie world country t s) as [o s'] eqn:H. simpl.
  unfold get_movie in H. unfold bind at 1 in H.
  destruct (get_movie_id world t s) as [[movie_id | e |] s1] eqn:H1;
    destruct (get_movie_id_trace _ _ _ _ _ H1) as (es1 & -> & Ha1 & Hp1);
    try (inversion H; subst; exists es1; simpl; rewrite Ha1; by auto).
  assert (Hfound : forall o2 s2,
    get_streaming_platforms world country movie_id
      (logged s (Get (SearchMovie t) :: es1)) = (o2, s2) ->
    exists es, trace s2 = trace s ++ Get (SearchMovie t) :: es
               /\ pages_fetched es = [] /\ (availability_calls es <= 1)%nat).
  { intros o2 s2 H2.
    destruct (get_streaming_platforms_trace _ _ _ _ _ _ H2) as (es2 & -> & Ha2 & Hp2).
    exists (es1 ++ Get (WatchProviders movie_id) :: es2). simpl.
    rewrite <- app_assoc. split; [done |].
    rewrite pages_fetched_app, availability_calls_app, availability_calls_cons.
    simpl. rewrite Hp1, Hp2, Ha1, Ha2. split; [done | lia]. }
  destruct movie_id;
    try (unfold bind in H;
         destruct (get_streaming_platforms world country _ _) as [[ps | e |] s2] eqn:H2;
         inversion H; subst; by eapply Hfound).
  inversion H; subst. exists es1. simpl. rewrite Ha1. auto.
Qed.

(** *** The further properties at concrete worlds *)

Import Cases.

Lemma plain_heading_intro (page : soup) (heading : string) :
  section_heading page = Some heading ->
  ascii_text heading = true ->
  (String.length heading <=? 4300)%nat = true ->
  plain_heading page.
Proof.
  intros Hh Ha Hl. unfold plain_heading. rewrite Hh. split; [exact Ha |].
  by apply Nat.leb_le.
Qed.

Lemma plain_heading_none (page : soup) :
  section_heading page = None -> plain_heading page.
Proof. intros Hh. unfold plain_heading. by rewrite Hh. Qed.

Lemma modest_count_intro (n : Z) :
  (0 <=? n) = true -> (n <? 2 ^ 1000) = true -> modest_count n.
Proof. intros H0 H1. split; [by apply Z.leb_le | by apply Z.ltb_lt]. Qed.

Lemma get_movie_search_failed_witness :
  net_404 (trace (fresh [])) (SearchMovie "Alien") = failed 404
  /\ 404 <> OK
  /\ get_movie net_404 PL "Alien" (fresh [])
     = (Return {| title := "Alien"; platforms := [] |},
        logged (fresh []) [Get (SearchMovie "Alien"); LogError (SearchMovie "Alien") 404]).
Proof.
  split; [reflexivity |]. split; [discriminate |].
  apply (get_movie_search_failed net_404 PL "Alien" (fresh [])
           {| status_code := 404; text := EmptyString; json_body := None |}).
  - reflexivity.
  - discriminate.
Defined.

Lemma get_movie_providers_failed_witness :
  JInt 348 <> JNull
  /\ get_movie_id (net_providers (failed 503)) "Alien" (fresh [])
     = (Return (JInt 348), logged (fresh []) [Get (SearchMovie "Alien")])
  /\ net_providers (failed 503) [Get (SearchMovie "Alien")] (WatchProviders (JInt 348))
     = failed 503
  /\ 503 <> OK
  /\ get_movie (net_providers (failed 503)) PL "Alien" (fresh [])
     = (Return {| title := "Alien"; platforms := [] |},
        logged (logged (fresh []) [Get (SearchMovie "Alien")])
          [Get (WatchProviders (JInt 348)); LogError (WatchProviders (JInt 348)) 503]).
Proof.
  assert (Hid : JInt 348 <> JNull) by discriminate.
  assert (Hsearch : get_movie_id (net_providers (failed 503)) "Alien" (fresh [])
                    = (Return (JInt 348), logged (fresh []) [Get (SearchMovie "Alien")]))
    by (vm_compute; reflexivity).
  assert (Hcode : 503 <> OK) by discriminate.
  split; [exact Hid |]. split; [exact Hsearch |]. split; [reflexivity |].
  split; [exact Hcode |].
  exact (get_movie_providers_failed (net_providers (failed 503)) PL "Alien" (fresh [])
           (logged (fresh []) [Get (SearchMovie "Alien")]) (JInt 348)
           {| status_code := 503; text := EmptyString; json_body := None |}
           Hid Hsearch eq_refl Hcode).
Defined.

Lemma get_movie_id_takes_first_result_witness :
  get_movie_id (net (failed 404) two_results []) "Alien" (fresh [])
  = (Return (JInt 348), logged (fresh []) [Get (SearchMovie "Alien")]).
Proof.
  apply (get_movie_id_takes_first_result (net (failed 404) two_results []) "Alien"
           (fresh [])
           {| status_code := 200; text := EmptyString; json_body := Some two_results |}
           {[ "results" := JList [ JDict {[ "id" := JInt 348 ]};
                                   JDict {[ "id" := JInt 999 ]} ] ]}
           {[ "id" := JInt 348 ]} [ JDict {[ "id" := JInt 999 ]} ] (JInt 348)).
  - reflexivity.
  - reflexivity.
  - reflexivity.
  - vm_compute; reflexivity.
  - vm_compute; reflexivity.
Defined.

Lemma get_streaming_platforms_undecodable_witness :
  get_streaming_platforms (net_providers (ok "<html>" None)) PL (JInt 348) (fresh [])
  = (Raise JSONDecodeError, logged (fresh []) [Get (WatchProviders (JInt 348))]).
Proof.
  apply (get_streaming_platforms_undecodable (net_providers (ok "<html>" None)) PL
           (JInt 348) (fresh [])
           {| status_code := 200; text := "<html>"; json_body := None |}).
  - reflexivity.
  - reflexivity.
  - reflexivity.
Defined.

Lemma get_streaming_platforms_not_iterable_witness :
  iterate JNull = Raise TypeError
  /\ get_streaming_platforms (net_providers (ok EmptyString (Some flatrate_null)))
       PL (JInt 348) (fresh [])
     = (Raise TypeError, logged (fresh []) [Get (WatchProviders (JInt 348))]).
Proof.
  split; [reflexivity |].
  apply (get_streaming_platforms_not_iterable
           (net_providers (ok EmptyString (Some flatrate_null))) PL (JInt 348) (fresh [])
           {| status_code := 200; text := EmptyString; json_body := Some flatrate_null |}
           flatrate_null
           (JDict {[ PL := JDict {[ "flatrate" := JNull ]} ]})
           (JDict {[ "flatrate" := JNull ]}) JNull).
  - reflexivity.
  - reflexivity.
  - reflexivity.
  - vm_compute; reflexivity.
  - vm_compute; reflexivity.
  - vm_compute; reflexivity.
  - reflexivity.
Defined.

Lemma get_streaming_platforms_missing_key_witness :
  getitem (JDict {[ PL := JDict {[ "flatrate" := JList (map provider ["Netflix"]) ]} ]})
    (KStr "DE") = Raise KeyError
  /\ get_streaming_platforms (net (failed 404) search_hit ["Netflix"]) "DE" (JInt 348)
       (fresh [])
     = (Return [], logged (fresh []) [Get (WatchProviders (JInt 348))]).
Proof.
  assert (Hde : getitem
                  (JDict {[ PL := JDict {[ "flatrate" := JList (map provider ["Netflix"]) ]} ]})
                  (KStr "DE") = Raise KeyError)
    by (vm_compute; reflexivity).
  split; [exact Hde |].
  apply (get_streaming_platforms_missing_key (net (failed 404) search_hit ["Netflix"])
           "DE" (JInt 348) (fresh [])
           {| status_code := 200; text := EmptyString;
              json_body := Some (providers_of ["Netflix"]) |}
           (providers_of ["Netflix"])).
  - reflexivity.
  - reflexivity.
  - reflexivity.
  - right. eexists. split; [vm_compute; reflexivity |]. left. exact Hde.
Defined.


Lemma get_page_result_witness :
  get_page (net (failed 404) search_hit []) user 1 (fresh [])
  = (Return (Some page1_text), logged (fresh []) [Get (WatchlistPage user 1)])
  /\ get_page (net (failed 404) search_hit []) user 2 (fresh [])
     = (Return None,
        logged (fresh []) [Get (WatchlistPage user 2); LogError (WatchlistPage user 2) 404]).
Proof.
  split.
  - exact (get_page_result (net (failed 404) search_hit []) user 1 (fresh [])
             {| status_code := 200; text := page1_text; json_body := None |} eq_refl).
  - exact (get_page_result (net (failed 404) search_hit []) user 2 (fresh [])
             {| status_code := 404; text := EmptyString; json_body := None |} eq_refl).
Defined.

Lemma watchlist_titles_in_page_order_witness :
  (forall h p, net2 h (WatchlistPage user p) = Responded (listing p))
  /\ status_code (listing 1) = OK
  /\ plain_heading (parser2 (text (listing 1)))
  /\ movies_count_of (parser2 (text (listing 1))) = Return 30
  /\ modest_count 30
  /\ watchlist net2 parser2 user PL (fresh [])
     = (Return [ {| title := "Alien"; platforms := ["Netflix"] |};
                 {| title := "Heat"; platforms := ["Netflix"] |};
                 {| title := "Ran"; platforms := ["Netflix"] |} ],
        snd (watchlist net2 parser2 user PL (fresh [])))
  /\ map title [ {| title := "Alien"; platforms := ["Netflix"] |};
                 {| title := "Heat"; platforms := ["Netflix"] |};
                 {| title := "Ran"; platforms := ["Netflix"] |} ]
     = flat_map (fun p => page_titles (parser2 (text (listing p))))
         (seqZ 1 (num_of_pages_of 30)).
Proof.
  assert (Hlisting : forall h p, net2 h (WatchlistPage user p) = Responded (listing p))
    by reflexivity.
  assert (Hplain : plain_heading (parser2 (text (listing 1))))
    by (apply (plain_heading_intro _ "wombatbat wants to see 30 films"); reflexivity).
  assert (Hcount : movies_count_of (parser2 (text (listing 1))) = Return 30)
    by (vm_compute; reflexivity).
  assert (Hmodest : modest_count 30) by (apply modest_count_intro; reflexivity).
  assert (Hrun : watchlist net2 parser2 user PL (fresh [])
                 = (Return [ {| title := "Alien"; platforms := ["Netflix"] |};
                             {| title := "Heat"; platforms := ["Netflix"] |};
                             {| title := "Ran"; platforms := ["Netflix"] |} ],
                    snd (watchlist net2 parser2 user PL (fresh []))))
    by (vm_compute; reflexivity).
  split; [exact Hlisting |]. split; [reflexivity |]. split; [exact Hplain |].
  split; [exact Hcount |]. split; [exact Hmodest |]. split; [exact Hrun |].
  exact (watchlist_titles_in_page_order net2 parser2 user PL listing Hlisting
           [] 30 _ _ eq_refl Hplain Hcount Hmodest Hrun).
Defined.

Lemma watchlist_unreadable_heading_witness :
  plain_heading (no_heading page1_text)
  /\ movies_count_of (no_heading page1_text) = Raise AttributeError
  /\ watchlist (net (failed 404) search_hit []) no_heading user PL (fresh [])
     = (Raise AttributeError,
        logged (with_watchlist (fresh []) []) [Get (WatchlistPage user 1)])
  /\ plain_heading (short_heading page1_text)
  /\ movies_count_of (short_heading page1_text) = Raise IndexError
  /\ watchlist (net (failed 404) search_hit []) short_heading user PL (fresh [])
     = (Raise IndexError,
        logged (with_watchlist (fresh []) []) [Get (WatchlistPage user 1)]).
Proof.
  assert (Hplain1 : plain_heading (no_heading page1_text))
    by (apply plain_heading_none; reflexivity).
  assert (Hplain2 : plain_heading (short_heading page1_text))
    by (apply (plain_heading_intro _ "films"); reflexivity).
  split; [exact Hplain1 |]. split; [reflexivity |]. split.
  - exact (watchlist_unreadable_heading (net (failed 404) search_hit []) no_heading
             user PL []
             {| status_code := 200; text := page1_text; json_body := None |}
             AttributeError eq_refl eq_refl Hplain1 eq_refl).
  - split; [exact Hplain2 |]. split; [reflexivity |].
    exact (watchlist_unreadable_heading (net (failed 404) search_hit []) short_heading
             user PL []
             {| status_code := 200; text := page1_text; json_body := None |}
             IndexError eq_refl eq_refl Hplain2 eq_refl).
Defined.

Lemma watchlist_unreadable_poster_witness :
  plain_heading (no_image page1_text)
  /\ movies_count_of (no_image page1_text) = Return 1
  /\ modest_count 1
  /\ poster_title {| find_img := None |} = Raise TypeError
  /\ watchlist (net (failed 404) search_hit []) no_image user PL (fresh [])
     = (Raise TypeError,
        logged (with_watchlist (fresh []) []) [Get (WatchlistPage user 1)]).
Proof.
  assert (Hplain : plain_heading (no_image page1_text))
    by (apply (plain_heading_intro _ "wombatbat wants to see 1 films"); reflexivity).
  assert (Hcount : movies_count_of (no_image page1_text) = Return 1)
    by (vm_compute; reflexivity).
  assert (Hmodest : modest_count 1) by (apply modest_count_intro; reflexivity).
  split; [exact Hplain |]. split; [exact Hcount |]. split; [exact Hmodest |].
  split; [reflexivity |].
  apply (watchlist_unreadable_poster (net (failed 404) search_hit []) no_image
           user PL []
           {| status_code := 200; text := page1_text; json_body := None |}
           1 {| find_img := None |} [] TypeError).
  - reflexivity.
  - reflexivity.
  - exact Hplain.
  - exact Hcount.
  - exact Hmodest.
  - reflexivity.
  - reflexivity.
Defined.

Lemma watchlist_requests_pages_witness :
  plain_heading (parser2 (text (listing 1)))
  /\ movies_count_of (parser2 (text (listing 1))) = Return 30
  /\ modest_count 30
  /\ pages_fetched (trace (snd (watchlist net2 parser2 user PL (fresh []))))
     = pages_fetched [] ++ seqZ 1 (num_of_pages_of 30 + 1).
Proof.
  assert (Hplain : plain_heading (parser2 (text (listing 1))))
    by (apply (plain_heading_intro _ "wombatbat wants to see 30 films"); reflexivity).
  assert (Hcount : movies_count_of (parser2 (text (listing 1))) = Return 30)
    by (vm_compute; reflexivity).
  assert (Hmodest : modest_count 30) by (apply modest_count_intro; reflexivity).
  split; [exact Hplain |]. split; [exact Hcount |]. split; [exact Hmodest |].
  apply (watchlist_requests_pages net2 parser2 user PL [] (listing 1) 30
           [ {| title := "Alien"; platforms := ["Netflix"] |};
             {| title := "Heat"; platforms := ["Netflix"] |};
             {| title := "Ran"; platforms := ["Netflix"] |} ]).
  - reflexivity.
  - reflexivity.
  - exact Hplain.
  - exact Hcount.
  - exact Hmodest.
  - vm_compute; reflexivity.
Defined.

Lemma summary_is_report_witness :
  _summary (fresh []) = None
  /\ watchlist net2 parser2 user PL (fresh [])
     = (Return [ {| title := "Alien"; platforms := ["Netflix"] |};
                 {| title := "Heat"; platforms := ["Netflix"] |};
                 {| title := "Ran"; platforms := ["Netflix"] |} ],
        snd (watchlist net2 parser2 user PL (fresh [])))
  /\ fst (summary net2 parser2 user PL (fresh []))
     = Return (report [ {| title := "Alien"; platforms := ["Netflix"] |};
                        {| title := "Heat"; platforms := ["Netflix"] |};
                        {| title := "Ran"; platforms := ["Netflix"] |} ]).
Proof.
  assert (Hrun : watchlist net2 parser2 user PL (fresh [])
                 = (Return [ {| title := "Alien"; platforms := ["Netflix"] |};
                             {| title := "Heat"; platforms := ["Netflix"] |};
                             {| title := "Ran"; platforms := ["Netflix"] |} ],
                    snd (watchlist net2 parser2 user PL (fresh []))))
    by (vm_compute; reflexivity).
  split; [reflexivity |]. split; [exact Hrun |].
  by rewrite (summary_is_report net2 parser2 user PL (fresh []) _ _ eq_refl Hrun).
Defined.

Lemma summary_computed_once_witness :
  _summary (fresh []) = None
  /\ exists t,
       summary net2 parser2 user PL (fresh [])
       = (Return t, snd (summary net2 parser2 user PL (fresh [])))
       /\ summary net2 parser2 user PL (snd (summary net2 parser2 user PL (fresh [])))
          = (Return t, snd (summary net2 parser2 user PL (fresh []))).
Proof.
  assert (Hrun : exists t, summary net2 parser2 user PL (fresh [])
                           = (Return t, snd (summary net2 parser2 user PL (fresh []))))
    by (eexists; vm_compute; reflexivity).
  destruct Hrun as (t & Hrun).
  split; [reflexivity |]. exists t. split; [exact Hrun |].
  exact (summary_computed_once net2 parser2 user PL (fresh []) _ t eq_refl Hrun).
Defined.

Lemma watchlist_computed_once_when_not_empty_witness :
  watchlist net2 parser2 user PL (fresh [])
  = (Return [ {| title := "Alien"; platforms := ["Netflix"] |};
              {| title := "Heat"; platforms := ["Netflix"] |};
              {| title := "Ran"; platforms := ["Netflix"] |} ],
     snd (watchlist net2 parser2 user PL (fresh [])))
  /\ watchlist net2 parser2 user PL (snd (watchlist net2 parser2 user PL (fresh [])))
     = (Return [ {| title := "Alien"; platforms := ["Netflix"] |};
                 {| title := "Heat"; platforms := ["Netflix"] |};
                 {| title := "Ran"; platforms := ["Netflix"] |} ],
        snd (watchlist net2 parser2 user PL (fresh []))).
Proof.
  assert (Hrun : watchlist net2 parser2 user PL (fresh [])
                 = (Return [ {| title := "Alien"; platforms := ["Netflix"] |};
                             {| title := "Heat"; platforms := ["Netflix"] |};
                             {| title := "Ran"; platforms := ["Netflix"] |} ],
                    snd (watchlist net2 parser2 user PL (fresh []))))
    by (vm_compute; reflexivity).
  split; [exact Hrun |].
  exact (watchlist_computed_once_when_not_empty net2 parser2 user PL _ _ _ _ Hrun).
Defined.

Lemma summary_after_watchlist_witness :
  _summary (fresh []) = None
  /\ watchlist net2 parser2 user PL (fresh [])
     = (Return [ {| title := "Alien"; platforms := ["Netflix"] |};
                 {| title := "Heat"; platforms := ["Netflix"] |};
                 {| title := "Ran"; platforms := ["Netflix"] |} ],
        snd (watchlist net2 parser2 user PL (fresh [])))
  /\ trace (snd (summary net2 parser2 user PL
                   (snd (watchlist net2 parser2 user PL (fresh [])))))
     = trace (snd (watchlist net2 parser2 user PL (fresh []))).
Proof.
  assert (Hrun : watchlist net2 parser2 user PL (fresh [])
                 = (Return [ {| title := "Alien"; platforms := ["Netflix"] |};
                             {| title := "Heat"; platforms := ["Netflix"] |};
                             {| title := "Ran"; platforms := ["Netflix"] |} ],
                    snd (watchlist net2 parser2 user PL (fresh []))))
    by (vm_compute; reflexivity).
  split; [reflexivity |]. split; [exact Hrun |].
  by rewrite (summary_after_watchlist net2 parser2 user PL (fresh []) _ _ _ eq_refl Hrun).
Defined.

Lemma Movie_str_order_free_witness :
  Permutation ["Netflix"; "HBO Max"] ["HBO Max"; "Netflix"]
  /\ Movie_str {| title := "Alien"; platforms := ["Netflix"; "HBO Max"] |}
     = Movie_str {| title := "Alien"; platforms := ["HBO Max"; "Netflix"] |}.
Proof.
  split; [apply perm_swap |].
  apply (Movie_str_order_free "Alien" ["Netflix"; "HBO Max"] ["HBO Max"; "Netflix"]).
  apply perm_swap.
Defined.

Lemma movies_count_of_heading_witness :
  Forall (fun w => is_word w && ascii_text w = true)
    (["wombatbat"; "WANTS"; "TO"; "SEE"] ++ ["123"; "FILMS"])
  /\ (String.length "123" <= 4300)%nat
  /\ movies_count_of
       {| section_heading :=
            Some (join " " (["wombatbat"; "WANTS"; "TO"; "SEE"] ++ ["123"; "FILMS"]));
          poster_containers := [] |}
     = int "123"
  /\ int "123" = Return 123.
Proof.
  assert (Hwords : Forall (fun w => is_word w && ascii_text w = true)
                     (["wombatbat"; "WANTS"; "TO"; "SEE"] ++ ["123"; "FILMS"]))
    by (repeat constructor).
  assert (Hlen : (String.length "123" <= 4300)%nat) by (apply Nat.leb_le; reflexivity).
  split; [exact Hwords |]. split; [exact Hlen |]. split; [| reflexivity].
  exact (movies_count_of_heading ["wombatbat"; "WANTS"; "TO"; "SEE"] "123" "FILMS" []
           Hwords Hlen).
Defined.

Lemma watchlist_aborted_then_partial_witness :
  plain_heading (parser (text {| status_code := 200; text := page1_text;
                                 json_body := None |}))
  /\ movies_count_of (parser (text {| status_code := 200; text := page1_text;
                                      json_body := None |})) = Return 1
  /\ modest_count 1
  /\ (let s2 := logged (snd (for_each (poster_containers page1)
                                (resolve_poster (net (failed 404) search_hit ["Netflix"]) PL)
                                (logged (with_watchlist (fresh []) [])
                                   [Get (WatchlistPage user 1)])))
                  [Get (WatchlistPage user 2); LogError (WatchlistPage user 2) 404] in
      watchlist (net (failed 404) search_hit ["Netflix"]) parser user PL (fresh [])
      = (Raise TypeError, s2)
      /\ watchlist (net (failed 404) search_hit ["Netflix"]) parser user PL s2
         = (Return [ {| title := "Alien"; platforms := ["Netflix"] |} ], s2)).
Proof.
  assert (Hplain : plain_heading (parser (text {| status_code := 200; text := page1_text;
                                                  json_body := None |})))
    by (apply (plain_heading_intro _ "wombatbat wants to see 1 films"); reflexivity).
  assert (Hcount : movies_count_of (parser (text {| status_code := 200; text := page1_text;
                                                    json_body := None |})) = Return 1)
    by (vm_compute; reflexivity).
  assert (Hmodest : modest_count 1) by (apply modest_count_intro; reflexivity).
  assert (Hfor : for_each (poster_containers page1)
                   (resolve_poster (net (failed 404) search_hit ["Netflix"]) PL)
                   (logged (with_watchlist (fresh []) []) [Get (WatchlistPage user 1)])
                 = (Return tt,
                    snd (for_each (poster_containers page1)
                           (resolve_poster (net (failed 404) search_hit ["Netflix"]) PL)
                           (logged (with_watchlist (fresh []) [])
                              [Get (WatchlistPage user 1)]))))
    by (vm_compute; reflexivity).
  assert (Hcode2 : 404 <> OK) by discriminate.
  split; [exact Hplain |]. split; [exact Hcount |]. split; [exact Hmodest |].
  destruct (watchlist_aborted_then_partial (net (failed 404) search_hit ["Netflix"])
              parser user PL []
              {| status_code := 200; text := page1_text; json_body := None |}
              {| status_code := 404; text := EmptyString; json_body := None |}
              1 _ eq_refl eq_refl Hplain Hcount Hmodest Hfor eq_refl Hcode2)
    as [Hraise Hnext].
  split; [exact Hraise |].
  apply Hnext. vm_compute; reflexivity.
Defined.
